(** * Filter-and-aggregate pipeline of the fashion sales dashboards

    A shallow embedding of the pandas code of [fashion_dashboard.py],
    [app.py] and [dashboard.py] (the latter holds two scripts: the
    "Centralized Dashboard" at its top and [fashion_brand.py] below it).

    Modelling conventions.
    - A DataFrame is the list of its rows, in index order.
    - [Date] is [option Z]: [None] is pandas' [NaT], which [load_data]
      produces with [errors='coerce'] (and [read_excel] for blank cells).
    - [Revenue], [Profit], [Quantity] are [option Qc]: [None] is [NaN].
      Amounts are exact rationals; the rounding of float64 is not modelled.
    - [Platform], [State], [City] and [Product] cells are strings and
      always present: the scripts build their widgets with
      [sorted(col.unique().tolist())], which raises on a column mixing
      text with [NaN]. Identifiers and [Delivery_Status] are present in
      every record too, as in the data model of the specification.
    - Dates are integers (day numbers or timestamps alike): the scripts
      only compare them. *)

From Stdlib Require Import QArith Qcanon.
From stdpp Require Import base decidable option numbers list sorting
  strings gmap fin_sets.

Local Open Scope Z_scope.

(** ** Data model *)

Record SalesRecord := mkRecord {
  Order_ID : string;
  Customer_ID : string;
  Customer_Name : string;
  Date : option Z;
  Platform : string;
  State : string;
  City : string;
  Product : string;
  SKU : string;
  Quantity : option Qc;
  Revenue : option Qc;
  Profit : option Qc;
  Delivery_Status : string
}.

Global Instance SalesRecord_eq_dec : EqDecision SalesRecord.
Proof. solve_decision. Defined.

Abbreviation DataFrame := (list SalesRecord).

(** ** The pandas operations the scripts use *)

Module Pandas.

(** [series >= ts] and [series <= ts] on a datetime column: a comparison
    with [NaT] is [False]. *)
Definition ge_ts (d : option Z) (ts : Z) : bool :=
  match d with Some x => bool_decide (ts ≤ x) | None => false end.

Definition le_ts (d : option Z) (ts : Z) : bool :=
  match d with Some x => bool_decide (x ≤ ts) | None => false end.

(** [Series.isin(values)], cell by cell; also Python's [x in values]. *)
Definition isin (v : string) (values : list string) : bool :=
  bool_decide (v ∈ values).

(** [df[mask]]: the rows whose mask entry is [True], in index order. *)
Definition getitem_mask {A} (mask : A → bool) (df : list A) : list A :=
  filter (λ r, mask r) df.

(** [DataFrame.empty]. *)
Definition empty {A} (df : list A) : bool :=
  match df with [] => true | _ => false end.

(** [Series.sum()]: [skipna=True], so [NaN] cells are left out and the
    sum of no cell is 0. *)
Definition sum (s : list (option Qc)) : Qc :=
  foldr (λ c acc, (default 0 c + acc)%Qc) 0%Qc s.

(** [Series.nunique()] on an identifier column. *)
Definition nunique (s : list string) : nat :=
  size (list_to_set (C:=gset string) s).

(** [Series.unique()]: the distinct values in order of first appearance. *)
Fixpoint unique (s : list string) : list string :=
  match s with
  | [] => []
  | x :: s' => x :: filter (λ y, y ≠ x) (unique s')
  end.

(** [Series.min()] and [Series.max()] on a datetime column skip [NaT];
    the result is [NaT] when no date is present. *)
Definition min_ts (s : list (option Z)) : option Z :=
  foldr (λ c acc, match c, acc with
                  | Some x, Some y => Some (Z.min x y)
                  | Some x, None => Some x
                  | None, _ => acc
                  end) None s.

Definition max_ts (s : list (option Z)) : option Z :=
  foldr (λ c acc, match c, acc with
                  | Some x, Some y => Some (Z.max x y)
                  | Some x, None => Some x
                  | None, _ => acc
                  end) None s.

(** Python's [x / n] for an integer count [n]; division by zero fails. *)
Definition truediv (x : Qc) (n : nat) : option Qc :=
  match n with
  | O => None
  | S _ => Some (x / Qc_of_Z (Z.of_nat n))%Qc
  end.

Section groupby.

Context {K : Type} `{EqDecision K} (le : relation K) `{!RelDecision le}.

(** The group keys of [df.groupby(col)]: [sort=True] is the default, so
    the distinct keys come in ascending order. *)
Definition group_keys (keys : list K) : list K :=
  merge_sort le (remove_dups keys).

(** The rows of one group. *)
Definition group_rows {A} (key : A → K) (k : K) (df : list A) : list A :=
  filter (λ r, key r = k) df.

(** [df.groupby(key)[col].sum()]: one entry per group key, with the sum
    of [col] over the rows of the group. *)
Definition groupby_sum {A} (key : A → K) (col : A → option Qc)
    (df : list A) : list (K * Qc) :=
  (λ k, (k, sum (col <$> group_rows key k df))) <$> group_keys (key <$> df).

(** [df.groupby(key).agg({a:'sum', b:'sum'})]. *)
Definition groupby_sum2 {A} (key : A → K) (a b : A → option Qc)
    (df : list A) : list (K * (Qc * Qc)) :=
  (λ k, (k, (sum (a <$> group_rows key k df), sum (b <$> group_rows key k df))))
    <$> group_keys (key <$> df).

(** [Series.sort_values(ascending=False)] on a series of sums. Entries
    with equal sums keep their relative order ("ties broken by stable
    input order"): pandas sorts the reversed values ascending and reverses
    the outcome, and numpy's sort is an insertion sort on the short arrays
    a dashboard ranks. No sum is [NaN], see [sum]. *)
Fixpoint insert_desc (x : K * Qc) (s : list (K * Qc)) : list (K * Qc) :=
  match s with
  | [] => [x]
  | y :: s' =>
      if decide (x.2 < y.2)%Qc then y :: insert_desc x s' else x :: s
  end.

Definition sort_values_desc (s : list (K * Qc)) : list (K * Qc) :=
  foldr insert_desc [] s.

(** [head(n)]: the first [n] rows; for a negative [n], all rows but the
    last [-n]. *)
Definition head {A} (n : Z) (s : list A) : list A :=
  if decide (0 ≤ n) then take (Z.to_nat n) s
  else take (length s - Z.to_nat (- n)) s.


End groupby.

(** The order of the keys of a two-column [groupby]. *)
Definition pair_le {A B} (leA : relation A) (leB : relation B)
    (x y : A * B) : Prop :=
  leA x.1 y.1 ∧ (x.1 = y.1 → leB x.2 y.2).

Global Instance pair_le_dec {A B} `{EqDecision A} (leA : relation A)
  (leB : relation B) `{!RelDecision leA, !RelDecision leB} :
  RelDecision (pair_le leA leB).
Proof. intros x y. unfold pair_le. apply _. Defined.

End Pandas.

(** The sentinel entry the scripts add to every multiselect. *)
Definition All : string := "All".

(** The value of [st.sidebar.date_input]: a pair of dates, or one date. *)
Inductive date_input :=
| Range (start_date end_date : Z)
| Single (d : Z).

(** The KPI cards. *)
Record KPISet := mkKPIs {
  total_revenue : Qc;
  total_orders : nat;
  aov : Qc;
  total_profit : Qc;
  total_quantity : Qc;
  unique_customers : nat;
  cancel_return_orders : nat
}.

(** What a script shows below its filters. *)
Inductive page :=
| Warning (msg : string)
| Metrics (k : KPISet).

(** A row of the per-customer exports. *)
Record CustomerRow := mkCustomerRow {
  cr_customer : string;
  cr_orders : nat;
  cr_revenue : Qc
}.

(** Fragments the scripts repeat word for word. *)

Definition date_mask (start_date end_date : Z) (r : SalesRecord) : bool :=
  Pandas.ge_ts (Date r) start_date && Pandas.le_ts (Date r) end_date.

(** [if "All" not in selected: df = df[df[col].isin(selected)]]. *)
Definition restrict (col : SalesRecord → string) (selected : list string)
    (df : DataFrame) : DataFrame :=
  if negb (Pandas.isin All selected)
  then Pandas.getitem_mask (λ r, Pandas.isin (col r) selected) df
  else df.

(** [aov = total_revenue / total_orders if total_orders else 0]. *)
Definition aov_per_order (revenue : Qc) (orders : nat) : option Qc :=
  if bool_decide (orders ≠ 0%nat) then Pandas.truediv revenue orders
  else Some 0%Qc.

(** [df.groupby(key)['Revenue'].sum().sort_values(ascending=False).head(n)]. *)
Definition top_groups (key : SalesRecord → string)
    (col : SalesRecord → option Qc) (n : Z) (df : DataFrame)
    : list (string * Qc) :=
  Pandas.head n
    (Pandas.sort_values_desc (Pandas.groupby_sum String.le key col df)).

(** [df.groupby('Date')['Revenue'].sum()]: rows without a date belong to
    no group. *)
Definition revenue_trend (df : DataFrame) : list (Z * Qc) :=
  Pandas.groupby_sum Z.le (λ r, default 0 (Date r)) Revenue
    (filter (λ r, is_Some (Date r)) df).

(** [df.groupby(['Platform','SKU']).agg({'Revenue':'sum','Quantity':'sum'})]. *)
Definition platform_sku_bubbles (df : DataFrame)
    : list (string * string * (Qc * Qc)) :=
  Pandas.groupby_sum2 (Pandas.pair_le String.le String.le)
    (λ r, (Platform r, SKU r)) Revenue Quantity df.

(** ** fashion_dashboard.py *)

Module FashionDashboard.

(** Lines 34-35; [today] is [pd.Timestamp.today()]. *)
Definition min_date (today : Z) (data : DataFrame) : option Z :=
  if negb (Pandas.empty data) then Pandas.min_ts (Date <$> data)
  else Some today.

Definition max_date (today : Z) (data : DataFrame) : option Z :=
  if negb (Pandas.empty data) then Pandas.max_ts (Date <$> data)
  else Some today.

(** Lines 54-58. *)
Definition date_bounds (date_range : date_input) : Z * Z :=
  match date_range with
  | Range start_date end_date => (start_date, end_date)
  | Single d => (d, d)
  end.

(** Lines 53-68. *)
Definition filtered_data (data : DataFrame) (date_range : date_input)
    (selected_platform selected_state selected_city selected_product
      : list string) : DataFrame :=
  let filtered_data := data in
  let '(start_date, end_date) := date_bounds date_range in
  let filtered_data :=
    Pandas.getitem_mask (date_mask start_date end_date) filtered_data in
  let filtered_data := restrict Platform selected_platform filtered_data in
  let filtered_data := restrict State selected_state filtered_data in
  let filtered_data := restrict City selected_city filtered_data in
  let filtered_data := restrict Product selected_product filtered_data in
  filtered_data.

(** Line 81: [isin([...]).sum()] adds up the mask, one per matching row
    (the column is part of every record, so the [else 0] is not taken). *)
Definition cancel_return_count (filtered_data : DataFrame) : nat :=
  length (Pandas.getitem_mask
            (λ r, Pandas.isin (Delivery_Status r) ["Cancelled"; "Returned"])
            filtered_data).

(** Lines 75-81. *)
Definition kpis (filtered_data : DataFrame) : option KPISet :=
  let total_revenue := Pandas.sum (Revenue <$> filtered_data) in
  let total_orders := Pandas.nunique (Order_ID <$> filtered_data) in
  aov ← aov_per_order total_revenue total_orders;
  let total_profit := Pandas.sum (Profit <$> filtered_data) in
  let total_quantity := Pandas.sum (Quantity <$> filtered_data) in
  let unique_customers := Pandas.nunique (Customer_ID <$> filtered_data) in
  let cancel_return_orders := cancel_return_count filtered_data in
  Some (mkKPIs total_revenue total_orders aov total_profit total_quantity
          unique_customers cancel_return_orders).

(** Lines 71-93. *)
Definition render (filtered_data : DataFrame) : option page :=
  if Pandas.empty filtered_data
  then Some (Warning "No data available for the selected filters.")
  else k ← kpis filtered_data; Some (Metrics k).

(** Lines 96, 106, 110. *)
Definition rev_platform (filtered_data : DataFrame) : list (string * Qc) :=
  Pandas.groupby_sum String.le Platform Revenue filtered_data.

Definition top_products (top_n : Z) (filtered_data : DataFrame)
    : list (string * Qc) :=
  top_groups Product Revenue top_n filtered_data.

Definition top_cities (top_n : Z) (filtered_data : DataFrame)
    : list (string * Qc) :=
  top_groups City Revenue top_n filtered_data.

(** Lines 161 and 164: [groupby('Customer_ID').agg({'Order_ID':'nunique',
    'Revenue':'sum'})]. *)
Definition customer_orders (filtered_data : DataFrame) : list CustomerRow :=
  (λ c, let rows := Pandas.group_rows Customer_ID c filtered_data in
        mkCustomerRow c (Pandas.nunique (Order_ID <$> rows))
          (Pandas.sum (Revenue <$> rows)))
    <$> Pandas.group_keys String.le (Customer_ID <$> filtered_data).

(** Lines 162 and 165. *)
Definition df_loyal (filtered_data : DataFrame) : list CustomerRow :=
  Pandas.getitem_mask (λ g, bool_decide (1 < cr_orders g)%nat)
    (customer_orders filtered_data).

Definition df_one_timer (filtered_data : DataFrame) : list CustomerRow :=
  Pandas.getitem_mask (λ g, bool_decide (cr_orders g = 1%nat))
    (customer_orders filtered_data).

End FashionDashboard.

(** ** app.py *)

Module App.

(** Lines 51-66; [date_range[0]] and [date_range[1]] fail on a shorter
    tuple. *)
Definition filtered_data (data : DataFrame) (date_range : list Z)
    (selected_platform selected_state selected_city selected_product
      : list string) : option DataFrame :=
  let filtered_data := data in
  start_date ← date_range !! 0%nat;
  end_date ← date_range !! 1%nat;
  let filtered_data :=
    Pandas.getitem_mask (date_mask start_date end_date) filtered_data in
  let filtered_data := restrict Platform selected_platform filtered_data in
  let filtered_data := restrict State selected_state filtered_data in
  let filtered_data := restrict City selected_city filtered_data in
  let filtered_data := restrict Product selected_product filtered_data in
  Some filtered_data.

(** Lines 80-82: "counts unique orders only". *)
Definition return_cancel_orders (filtered_data : DataFrame) : nat :=
  Pandas.nunique
    (Order_ID <$> Pandas.getitem_mask
       (λ r, Pandas.isin (Delivery_Status r) ["Return"; "Cancel"])
       filtered_data).

(** Lines 74-85. *)
Definition kpis (filtered_data : DataFrame) : option KPISet :=
  let total_revenue := Pandas.sum (Revenue <$> filtered_data) in
  let total_orders := Pandas.nunique (Order_ID <$> filtered_data) in
  aov ← aov_per_order total_revenue total_orders;
  let total_profit := Pandas.sum (Profit <$> filtered_data) in
  let return_cancel_orders := return_cancel_orders filtered_data in
  let total_quantity := Pandas.sum (Quantity <$> filtered_data) in
  let unique_customers := Pandas.nunique (Customer_ID <$> filtered_data) in
  Some (mkKPIs total_revenue total_orders aov total_profit total_quantity
          unique_customers return_cancel_orders).

(** Lines 69-95. *)
Definition render (filtered_data : DataFrame) : option page :=
  if Pandas.empty filtered_data
  then Some (Warning "No data available for the selected filters.")
  else k ← kpis filtered_data; Some (Metrics k).

(** Lines 99 and 111. *)
Definition rev_platform (filtered_data : DataFrame) : list (string * Qc) :=
  Pandas.groupby_sum String.le Platform Revenue filtered_data.

Definition top_products (filtered_data : DataFrame) : list (string * Qc) :=
  top_groups Product Revenue 5 filtered_data.

End App.

(** ** dashboard.py, the script at its top *)

Module Dashboard.

Definition platform_options : list string := ["Amazon"; "Flipkart"; "Shopify"].

(** Lines 25-28. *)
Definition platform_filter (selected_platform_sidebar : string)
    : list string :=
  if bool_decide (selected_platform_sidebar = All) then platform_options
  else [selected_platform_sidebar].

(** Lines 34-40; [selected] is what the multiselect widget returns. *)
Definition multiselect_with_all (options selected : list string)
    : list string :=
  if Pandas.isin All selected || Pandas.empty selected then options
  else selected.

(** Lines 52-59. *)
Definition filtered_df (df : DataFrame) (date_range : list Z)
    (platform_filter selected_state selected_city selected_product
      : list string) : option DataFrame :=
  lo ← date_range !! 0%nat;
  hi ← date_range !! 1%nat;
  Some (Pandas.getitem_mask
          (λ r, Pandas.ge_ts (Date r) lo && Pandas.le_ts (Date r) hi
                && Pandas.isin (Platform r) platform_filter
                && Pandas.isin (State r) selected_state
                && Pandas.isin (City r) selected_city
                && Pandas.isin (Product r) selected_product) df).

(** Line 64: [sum / max(len(filtered_df), 1)]. *)
Definition aov (filtered_df : DataFrame) : option Qc :=
  Pandas.truediv (Pandas.sum (Revenue <$> filtered_df))
    (Nat.max (length filtered_df) 1).

(** Line 66. *)
Definition return_cancel_count (filtered_df : DataFrame) : nat :=
  length (Pandas.getitem_mask
            (λ r, Pandas.isin (Delivery_Status r) ["Returned"; "Cancelled"])
            filtered_df).


End Dashboard.

(** ** dashboard.py, the script fashion_brand.py at its bottom *)

(** A row of its one-time customer export. *)
Record OneTimerRow := mkOneTimerRow {
  ot_customer : string;
  ot_name : string;
  ot_city : string;
  ot_profit : Qc;
  ot_quantity : Qc;
  ot_orders : nat
}.

Module FashionBrand.

Definition customer_key (r : SalesRecord) : string * string * string :=
  (Customer_ID r, Customer_Name r, City r).

(** Lines 317-318: [groupby(['Customer_ID','Customer_Name','City'])
    .agg({'Profit':'sum','Quantity':'sum','Order_ID':'nunique'})], then
    the rows with [Order_ID == 1]. *)
Definition df_one_timer (filtered_data : DataFrame) : list OneTimerRow :=
  Pandas.getitem_mask (λ g, bool_decide (ot_orders g = 1%nat))
    ((λ k, let rows := Pandas.group_rows customer_key k filtered_data in
           mkOneTimerRow k.1.1 k.1.2 k.2
             (Pandas.sum (Profit <$> rows)) (Pandas.sum (Quantity <$> rows))
             (Pandas.nunique (Order_ID <$> rows)))
       <$> Pandas.group_keys
             (Pandas.pair_le (Pandas.pair_le String.le String.le) String.le)
             (customer_key <$> filtered_data)).

End FashionBrand.

Global Instance OneTimerRow_eq_dec : EqDecision OneTimerRow.
Proof. solve_decision. Defined.

Global Instance KPISet_eq_dec : EqDecision KPISet.
Proof. solve_decision. Defined.

Global Instance page_eq_dec : EqDecision page.
Proof. solve_decision. Defined.

Global Instance CustomerRow_eq_dec : EqDecision CustomerRow.
Proof. solve_decision. Defined.

(** ** The charts of fashion_dashboard.py and the whole page *)

Record Charts := mkCharts {
  ch_rev_platform : list (string * Qc);
  ch_profit_platform : list (string * Qc);
  ch_top_products : list (string * Qc);
  ch_top_cities : list (string * Qc);
  ch_rev_trend : list (Z * Qc);
  ch_bubble_data : list (string * string * (Qc * Qc))
}.

Global Instance Charts_eq_dec : EqDecision Charts.
Proof. solve_decision. Defined.

(** Lines 96-118 of fashion_dashboard.py. *)
Definition fashion_charts (top_n : Z) (filtered_data : DataFrame) : Charts :=
  mkCharts
    (FashionDashboard.rev_platform filtered_data)
    (Pandas.groupby_sum String.le Platform Profit filtered_data)
    (FashionDashboard.top_products top_n filtered_data)
    (FashionDashboard.top_cities top_n filtered_data)
    (revenue_trend filtered_data)
    (platform_sku_bubbles filtered_data).

(** Lines 71-118: the warning alone, or the KPI cards and the charts. *)
Definition fashion_page (top_n : Z) (filtered_data : DataFrame)
    : option (page * option Charts) :=
  if Pandas.empty filtered_data
  then p ← FashionDashboard.render filtered_data; Some (p, None)
  else p ← FashionDashboard.render filtered_data;
       Some (p, Some (fashion_charts top_n filtered_data)).

(** ** The scripts as programs over Python's names and objects

    A name is bound to an object, and a DataFrame is an object on the
    heap: two names may be bound to one object. Every statement of the
    filter either binds a name to a new object ([copy()], [df[mask]]) or
    reads. *)

Module Script.

Record store := mkStore {
  heap : gmap nat DataFrame;
  names : gmap string nat
}.

Definition M (A : Type) : Type := store → option (A * store).

Definition ret {A} (a : A) : M A := λ s, Some (a, s).

Definition bind {A B} (m : M A) (k : A → M B) : M B :=
  λ s, match m s with
       | Some (a, s') => k a s'
       | None => None
       end.

(** An exception: the run stops. *)
Definition raise {A} : M A := λ _, None.

Definition lift {A} (o : option A) : M A :=
  match o with Some a => ret a | None => raise end.

Notation "'let*' x ':=' m 'in' k" := (bind m (λ x, k))
  (at level 10, x name, m at level 100, k at level 200, only parsing).
Notation "m ';;' k" := (bind m (λ _, k))
  (at level 100, k at level 200, right associativity, only parsing).

(** Reading a name; an unbound name is an error. *)
Definition load (x : string) : M DataFrame :=
  λ s, l ← names s !! x; df ← heap s !! l; Some (df, s).

(** A new DataFrame object. *)
Definition alloc (df : DataFrame) : M nat :=
  λ s, let l := fresh (dom (heap s)) in
       Some (l, mkStore (<[l := df]> (heap s)) (names s)).

(** Binding a name. *)
Definition assign (x : string) (l : nat) : M unit :=
  λ s, Some ((), mkStore (heap s) (<[x := l]> (names s))).

(** [x = y.copy()]. *)
Definition copy (x y : string) : M unit :=
  let* df := load y in
  let* l := alloc df in
  assign x l.

(** [x = y[mask]]. *)
Definition getitem (x y : string) (mask : SalesRecord → bool) : M unit :=
  let* df := load y in
  let* l := alloc (Pandas.getitem_mask mask df) in
  assign x l.

(** [if "All" not in selected:
       filtered_data = filtered_data[filtered_data[col].isin(selected)]]. *)
Definition restrict_stmt (col : SalesRecord → string)
    (selected : list string) : M unit :=
  if negb (Pandas.isin All selected)
  then getitem "filtered_data" "filtered_data"
         (λ r, Pandas.isin (col r) selected)
  else ret ().

(** fashion_dashboard.py, lines 53-68. *)
Definition fashion_filter (date_range : date_input)
    (selected_platform selected_state selected_city selected_product
      : list string) : M unit :=
  copy "filtered_data" "data";;
  let '(start_date, end_date) := FashionDashboard.date_bounds date_range in
  getitem "filtered_data" "filtered_data" (date_mask start_date end_date);;
  restrict_stmt Platform selected_platform;;
  restrict_stmt State selected_state;;
  restrict_stmt City selected_city;;
  restrict_stmt Product selected_product.

(** fashion_dashboard.py, lines 53-118: the filter, then every summary
    read off [filtered_data]. *)
Definition fashion_dashboard (date_range : date_input)
    (selected_platform selected_state selected_city selected_product
      : list string) (top_n : Z) : M (page * option Charts) :=
  fashion_filter date_range selected_platform selected_state selected_city
    selected_product;;
  let* view := load "filtered_data" in
  lift (fashion_page top_n view).

(** dashboard.py, lines 52-59: [filtered_df = df[...]]. *)
Definition dashboard_filter (date_range : list Z)
    (platform_filter selected_state selected_city selected_product
      : list string) : M DataFrame :=
  let* lo := lift (date_range !! 0%nat) in
  let* hi := lift (date_range !! 1%nat) in
  getitem "filtered_df" "df"
    (λ r, Pandas.ge_ts (Date r) lo && Pandas.le_ts (Date r) hi
          && Pandas.isin (Platform r) platform_filter
          && Pandas.isin (State r) selected_state
          && Pandas.isin (City r) selected_city
          && Pandas.isin (Product r) selected_product);;
  load "filtered_df".

(** The DataFrame a name stands for. *)
Definition frame_of (x : string) (s : store) : option DataFrame :=
  l ← names s !! x; heap s !! l.

(** What a statement that binds [x] may change: it may add objects and
    rebind [x]; every object that was there is as it was, and so is every
    other name. *)
Definition extends (x : string) (s s' : store) : Prop :=
  heap s ⊆ heap s' ∧ ∀ z, z ≠ x → names s' !! z = names s !! z.

End Script.

(** ** The specification's filter, in its own words *)

Module Spec.

(** A dimension of a FilterSpec: "all values" or an explicit selection. *)
Inductive selection :=
| AllValues
| Explicit (accepted : list string).

Record FilterSpec := mkFilterSpec {
  fs_start : Z;
  fs_end : Z;
  fs_platform : selection;
  fs_state : selection;
  fs_city : selection;
  fs_product : selection
}.

(** A dimension is "all values" or the record's value is a member of the
    explicit selection. *)
Definition accepts (sel : selection) (v : string) : Prop :=
  match sel with
  | AllValues => True
  | Explicit accepted => v ∈ accepted
  end.

(** [start ≤ record.date ≤ end]; a missing date is within no range. *)
Definition date_within (start_date end_date : Z) (d : option Z) : Prop :=
  match d with
  | Some x => start_date ≤ x ≤ end_date
  | None => False
  end.

Definition satisfies (F : FilterSpec) (r : SalesRecord) : Prop :=
  date_within (fs_start F) (fs_end F) (Date r)
  ∧ accepts (fs_platform F) (Platform r)
  ∧ accepts (fs_state F) (State r)
  ∧ accepts (fs_city F) (City r)
  ∧ accepts (fs_product F) (Product r).

Global Instance accepts_dec sel v : Decision (accepts sel v).
Proof. destruct sel; simpl; apply _. Defined.

Global Instance date_within_dec s e d : Decision (date_within s e d).
Proof. destruct d; simpl; apply _. Defined.

Global Instance satisfies_dec F r : Decision (satisfies F r).
Proof. unfold satisfies. apply _. Defined.

(** A normalized dimension: an explicit selection is non-empty and does
    not hold the sentinel (such selections were rewritten to
    "all values"). *)
Definition normalized_selection (sel : selection) : Prop :=
  match sel with
  | AllValues => True
  | Explicit accepted => accepted ≠ [] ∧ All ∉ accepted
  end.

Definition normalized (F : FilterSpec) : Prop :=
  normalized_selection (fs_platform F)
  ∧ normalized_selection (fs_state F)
  ∧ normalized_selection (fs_city F)
  ∧ normalized_selection (fs_product F).

(** The multiselect value that stands for a dimension. *)
Definition widget (sel : selection) : list string :=
  match sel with
  | AllValues => [All]
  | Explicit accepted => accepted
  end.

(** What the scripts' test [if "All" not in selected] makes of a
    multiselect value. *)
Definition of_widget (selected : list string) : selection :=
  if Pandas.isin All selected then AllValues else Explicit selected.





End Spec.

(** ** Sample data *)

Module Sample.

Definition amount (n : Z) : option Qc := Some (Qc_of_Z n).

Definition row (order customer : string) (date : option Z)
    (platform product : string) (revenue quantity : Z) (status : string)
    : SalesRecord :=
  mkRecord order customer customer date platform "Goa" "Panaji" product
    "SKU-1" (amount quantity) (amount revenue) (amount 0) status.

(** The two records of the specification's example scenario; dates are
    day numbers. *)
Definition amazon_row : SalesRecord :=
  row "1" "c1" (Some 19723) "Amazon" "Shirt" 100 2 "Delivered".

Definition flipkart_row : SalesRecord :=
  row "2" "c2" (Some 19724) "Flipkart" "Jeans" 200 1 "Delivered".

Definition two_platforms : DataFrame := [amazon_row; flipkart_row].

(** A record whose date cell did not parse. *)
Definition undated_row : SalesRecord :=
  row "3" "c3" None "Shopify" "Scarf" 50 1 "Delivered".

(** One cancelled order of two lines. *)
Definition two_line_order : DataFrame :=
  [row "7" "c1" (Some 19723) "Amazon" "Shirt" 100 1 "Cancelled";
   row "7" "c1" (Some 19723) "Amazon" "Jeans" 100 1 "Cancelled"].


(** One customer with an order in each of two cities. *)
Definition two_city_customer : DataFrame :=
  [mkRecord "1" "c1" "Asha" (Some 19723) "Amazon" "Goa" "Panaji" "Shirt"
     "SKU-1" (amount 1) (amount 100) (amount 10) "Delivered";
   mkRecord "2" "c1" "Asha" (Some 19724) "Amazon" "Goa" "Margao" "Jeans"
     "SKU-2" (amount 1) (amount 200) (amount 20) "Delivered"].

(** The same order with the status names app.py looks for. *)
Definition two_line_cancel : DataFrame :=
  [row "7" "c1" (Some 19723) "Amazon" "Shirt" 100 1 "Cancel";
   row "7" "c1" (Some 19723) "Amazon" "Jeans" 100 1 "Cancel"].

(** Platform restricted to Amazon, the two days of [two_platforms]. *)
Definition amazon_only : Spec.FilterSpec :=
  Spec.mkFilterSpec 19723 19724 (Spec.Explicit ["Amazon"]) Spec.AllValues
    Spec.AllValues Spec.AllValues.

(** Python's state with the loaded dataset bound to [data] and to [df],
    before the filter has run. *)
Definition loaded : Script.store :=
  Script.mkStore {[ 0%nat := two_platforms ]}
    {[ "data" := 0%nat; "df" := 0%nat ]}.

(** The same dataset at another address, after an earlier run left a
    [filtered_data] behind. *)
Definition rerun : Script.store :=
  Script.mkStore {[ 3%nat := two_platforms; 5%nat := [amazon_row] ]}
    {[ "data" := 3%nat; "df" := 3%nat; "filtered_data" := 5%nat ]}.

(** The KPI cards with every entry 0. *)
Definition zero_kpis : KPISet := mkKPIs 0%Qc 0 0%Qc 0%Qc 0%Qc 0 0.

End Sample.

(** ** Further code of the scripts *)

(** The sidebar's multiselect options. *)

Module Sidebar.

(** fashion_dashboard.py, lines 38, 41, 44 and 47:
    [["All"] + sorted(data[col].unique().tolist()) if not data.empty
     else ["All"]]. Python's [sorted] orders text by code point. *)
Definition options (col : SalesRecord → string) (data : DataFrame)
    : list string :=
  if negb (Pandas.empty data)
  then All :: merge_sort String.le (Pandas.unique (col <$> data))
  else [All].

(** app.py, lines 35, 39, 43 and 47: the same without the test. *)
Definition app_options (col : SalesRecord → string) (data : DataFrame)
    : list string :=
  All :: merge_sort String.le (Pandas.unique (col <$> data)).

End Sidebar.

(** fashion_dashboard.py, lines 136-147. *)

Module FashionTables.




End FashionTables.

(** dashboard.py, the cards and charts of the script at its top. *)

Module DashboardCharts.







End DashboardCharts.

(** What a multiselect value stands for in dashboard.py: left empty, it is
    read as "All". *)
Definition empty_as_all (selected : list string) : list string :=
  if Pandas.empty selected then [All] else selected.

(** A selection that lets through at least what another does, for the
    test [if "All" not in selected]. *)
Definition wider (selected selected' : list string) : Prop :=
  (All ∈ selected') ∨ ((All ∉ selected) ∧ (selected ⊆ selected')).

(** * Proofs *)

(** Closed decidable goals, by evaluation. *)
Ltac by_eval := apply (bool_decide_unpack _); vm_compute; exact I.

(** ** Filtering *)

Section filter_facts.

Import Spec.

Lemma getitem_mask_sublist {A} (mask : A → bool) (df : list A) :
  Pandas.getitem_mask mask df `sublist_of` df.
Proof. apply sublist_filter. Qed.

Lemma filter_all {A} (P : A → Prop) `{!∀ x, Decision (P x)} (l : list A) :
  filter P l = l ↔ Forall P l.
Proof.
  split.
  - intros Heq. apply Forall_forall. intros x Hx.
    rewrite <- Heq in Hx. by apply list_elem_of_filter in Hx as [? _].
  - induction 1 as [|x l HP _ IH]; [done|].
    rewrite filter_cons_True by done. by rewrite IH.
Qed.

Lemma filter_ext_elem_of {A} (P Q : A → Prop) `{!∀ x, Decision (P x)}
    `{!∀ x, Decision (Q x)} (l : list A) :
  (∀ x, x ∈ l → (P x ↔ Q x)) → filter P l = filter Q l.
Proof.
  induction l as [|x l IH]; intros Hiff; [done|].
  rewrite !filter_cons, IH by (intros y ?; apply Hiff; by right).
  pose proof (Hiff x ltac:(by left)).
  destruct (decide (P x)), (decide (Q x)); by first [done | tauto].
Qed.

Lemma elem_of_unique s x : x ∈ Pandas.unique s ↔ x ∈ s.
Proof.
  induction s as [|y s IH]; [done|]. simpl.
  rewrite !elem_of_cons, list_elem_of_filter, IH. split.
  - intros [->|[_ ?]]; auto.
  - intros [->|?]; [by left|]. destruct (decide (x = y)); auto.
Qed.

Lemma date_mask_within s e r :
  Is_true (date_mask s e r) ↔ date_within s e (Date r).
Proof.
  unfold date_mask, Pandas.ge_ts, Pandas.le_ts, date_within.
  destruct (Date r) as [d|]; simpl; [|done].
  by rewrite andb_True, !bool_decide_spec.
Qed.

Lemma restrict_filter col selected df :
  restrict col selected df
  = filter (λ r, accepts (of_widget selected) (col r)) df.
Proof.
  unfold restrict, of_widget, Pandas.getitem_mask, Pandas.isin.
  case_bool_decide as Hall; simpl.
  - symmetry. apply filter_all, Forall_forall. done.
  - apply list_filter_iff. intros r. by rewrite bool_decide_spec.
Qed.

(** The filter of fashion_dashboard.py is one pass with the conjunction
    of the active predicates. *)
Lemma filtered_data_filter data s e sp ss sc spr :
  FashionDashboard.filtered_data data (Range s e) sp ss sc spr
  = filter (satisfies (mkFilterSpec s e (of_widget sp) (of_widget ss)
                         (of_widget sc) (of_widget spr))) data.
Proof.
  unfold FashionDashboard.filtered_data. simpl.
  rewrite !restrict_filter.
  unfold Pandas.getitem_mask. rewrite !list_filter_filter.
  apply list_filter_iff. intros r. unfold satisfies. simpl.
  rewrite date_mask_within. tauto.
Qed.

(** app.py repeats the filter of fashion_dashboard.py. *)
Lemma app_filtered_data data s e sp ss sc spr :
  App.filtered_data data [s; e] sp ss sc spr
  = Some (FashionDashboard.filtered_data data (Range s e) sp ss sc spr).
Proof. reflexivity. Qed.

Lemma of_widget_widget sel :
  normalized_selection sel → of_widget (widget sel) = sel.
Proof.
  destruct sel as [|acc]; simpl; unfold of_widget, Pandas.isin.
  - intros _. rewrite bool_decide_true; [done|]. by apply list_elem_of_singleton.
  - intros [_ Hno]. by rewrite bool_decide_false.
Qed.

Lemma restrict_no_selection col df : restrict col [] df = [].
Proof.
  rewrite restrict_filter. unfold of_widget, Pandas.isin.
  rewrite bool_decide_false by apply not_elem_of_nil. simpl.
  induction df as [|r df IH]; [done|].
  rewrite filter_cons_False; [done|]. apply not_elem_of_nil.
Qed.

Lemma restrict_all col df : restrict col [All] df = df.
Proof. reflexivity. Qed.

Lemma restrict_nil col selected : restrict col selected [] = [].
Proof. unfold restrict. by destruct (negb _). Qed.

Lemma min_ts_le s a x : Pandas.min_ts s = Some a → Some x ∈ s → a ≤ x.
Proof.
  revert a. induction s as [|c s IH]; intros a Hmin Hin.
  - by apply not_elem_of_nil in Hin.
  - simpl in Hmin. apply elem_of_cons in Hin as [<-|Hin].
    + destruct (Pandas.min_ts s); simplify_eq; lia.
    + destruct c as [y|]; [|by apply IH].
      destruct (Pandas.min_ts s) as [m|] eqn:Hm; simplify_eq.
      * specialize (IH m eq_refl Hin). lia.
      * clear IH. exfalso. induction s as [|[z|] s IHs]; simpl in *.
        -- by apply not_elem_of_nil in Hin.
        -- by destruct (Pandas.min_ts s).
        -- apply elem_of_cons in Hin as [?|?]; [done|]. by apply IHs.
Qed.

Lemma max_ts_ge s b x : Pandas.max_ts s = Some b → Some x ∈ s → x ≤ b.
Proof.
  revert b. induction s as [|c s IH]; intros b Hmax Hin.
  - by apply not_elem_of_nil in Hin.
  - simpl in Hmax. apply elem_of_cons in Hin as [<-|Hin].
    + destruct (Pandas.max_ts s); simplify_eq; lia.
    + destruct c as [y|]; [|by apply IH].
      destruct (Pandas.max_ts s) as [m|] eqn:Hm; simplify_eq.
      * specialize (IH m eq_refl Hin). lia.
      * clear IH. exfalso. induction s as [|[z|] s IHs]; simpl in *.
        -- by apply not_elem_of_nil in Hin.
        -- by destruct (Pandas.max_ts s).
        -- apply elem_of_cons in Hin as [?|?]; [done|]. by apply IHs.
Qed.

(** With every widget on "All", only the date mask is left, and between
    the least and the greatest date it keeps the rows that have a date. *)
Lemma full_range_filter today data a b :
  FashionDashboard.min_date today data = Some a →
  FashionDashboard.max_date today data = Some b →
  FashionDashboard.filtered_data data (Range a b) [All] [All] [All] [All]
  = filter (λ r, is_Some (Date r)) data.
Proof.
  intros Hmin Hmax. unfold FashionDashboard.filtered_data. simpl.
  rewrite !restrict_all. unfold Pandas.getitem_mask.
  destruct data as [|r0 data0]; [done|]. simpl in Hmin, Hmax.
  set (data := r0 :: data0) in *.
  assert (∀ r, r ∈ data →
    (Is_true (date_mask a b r) ↔ is_Some (Date r))) as Hiff.
  { intros r Hr. rewrite date_mask_within. unfold date_within.
    destruct (Date r) as [d|] eqn:Hd.
    - assert (Some d ∈ Date <$> data) as Hin.
      { rewrite <- Hd. by apply list_elem_of_fmap_2. }
      pose proof (min_ts_le _ _ _ Hmin Hin).
      pose proof (max_ts_ge _ _ _ Hmax Hin).
      split; [eauto|lia].
    - split; [done|]. by intros ?%is_Some_None. }
  by apply filter_ext_elem_of.
Qed.

End filter_facts.

(** ** Claims on the filter *)

(** C1. For every dataset [D] and every normalized filter spec [F], the
    filtered view of fashion_dashboard.py (and of app.py, which repeats
    it) is exactly the ordered subsequence of [D] made of the records that
    satisfy [F]'s conjunctive predicate: every record of the view
    satisfies it, no record of [D] outside the view does, and the view
    keeps [D]'s relative order. *)
Theorem filtered_view_is_matching_subsequence
    (D : DataFrame) (F : Spec.FilterSpec) :
  Spec.normalized F →
  let view :=
    FashionDashboard.filtered_data D
      (Range (Spec.fs_start F) (Spec.fs_end F))
      (Spec.widget (Spec.fs_platform F)) (Spec.widget (Spec.fs_state F))
      (Spec.widget (Spec.fs_city F)) (Spec.widget (Spec.fs_product F)) in
  view = filter (Spec.satisfies F) D
  ∧ App.filtered_data D [Spec.fs_start F; Spec.fs_end F]
      (Spec.widget (Spec.fs_platform F)) (Spec.widget (Spec.fs_state F))
      (Spec.widget (Spec.fs_city F)) (Spec.widget (Spec.fs_product F))
    = Some view
  ∧ view `sublist_of` D
  ∧ (∀ r, r ∈ view → Spec.satisfies F r)
  ∧ (∀ r, r ∈ D → r ∉ view → ¬ Spec.satisfies F r).
Proof.
  intros (Hp & Hs & Hc & Hpr) view.
  assert (view = filter (Spec.satisfies F) D) as Hview.
  { unfold view. rewrite filtered_data_filter.
    rewrite !of_widget_widget by done. by destruct F. }
  split; [done|]. split; [apply app_filtered_data|].
  rewrite Hview. split; [apply sublist_filter|]. split.
  - intros r Hr. by apply list_elem_of_filter in Hr as [? _].
  - intros r HD Hout Hsat. apply Hout. by apply list_elem_of_filter.
Qed.

Lemma filtered_view_is_matching_subsequence_witness :
  Spec.normalized Sample.amazon_only
  ∧ FashionDashboard.filtered_data Sample.two_platforms (Range 19723 19724)
      ["Amazon"] [All] [All] [All]
    = filter (Spec.satisfies Sample.amazon_only) Sample.two_platforms.
Proof.
  assert (Spec.normalized Sample.amazon_only) as Hn.
  { repeat split; simpl; try done. by_eval. }
  split; [exact Hn|].
  exact (proj1 (filtered_view_is_matching_subsequence
                  Sample.two_platforms Sample.amazon_only Hn)).
Defined.

(** The second example of the specification: restricting Platform to
    Amazon leaves the one Amazon record. *)
Example amazon_only_view :
  FashionDashboard.filtered_data Sample.two_platforms (Range 19723 19724)
    ["Amazon"] [All] [All] [All] = [Sample.amazon_row].
Proof. by_eval. Qed.

(** C6, as stated, fails: with "All" on every dimension and the date
    range from the least to the greatest date of the dataset, a record
    whose date is missing is dropped. *)
Lemma full_range_drops_undated_rows :
  ¬ (∀ (today : Z) (D : DataFrame) (a b : Z),
       FashionDashboard.min_date today D = Some a →
       FashionDashboard.max_date today D = Some b →
       FashionDashboard.filtered_data D (Range a b) [All] [All] [All] [All]
       = D).
Proof.
  intros H.
  specialize (H 0 [Sample.undated_row; Sample.amazon_row] 19723 19723
                eq_refl eq_refl).
  apply (f_equal length) in H. vm_compute in H. discriminate H.
Qed.

(** C6, amended. For every dataset [D], the filter with "All" on every
    dimension and the date range from the least to the greatest date of
    [D] returns, in [D]'s order, exactly the records of [D] whose date is
    present; it returns exactly [D] when and only when no date is
    missing. *)
Theorem full_range_keeps_dated_rows
    (today : Z) (D : DataFrame) (a b : Z) :
  FashionDashboard.min_date today D = Some a →
  FashionDashboard.max_date today D = Some b →
  let view :=
    FashionDashboard.filtered_data D (Range a b) [All] [All] [All] [All] in
  view = filter (λ r, is_Some (Date r)) D
  ∧ (view = D ↔ ∀ r, r ∈ D → is_Some (Date r)).
Proof.
  intros Hmin Hmax view.
  assert (view = filter (λ r, is_Some (Date r)) D) as ->
    by (by eapply full_range_filter).
  split; [done|]. by rewrite filter_all, Forall_forall.
Qed.

Lemma full_range_keeps_dated_rows_witness :
  FashionDashboard.min_date 0 Sample.two_platforms = Some 19723
  ∧ FashionDashboard.max_date 0 Sample.two_platforms = Some 19724
  ∧ FashionDashboard.filtered_data Sample.two_platforms (Range 19723 19724)
      [All] [All] [All] [All]
    = filter (λ r, is_Some (Date r)) Sample.two_platforms.
Proof.
  split; [reflexivity|]. split; [reflexivity|].
  exact (proj1 (full_range_keeps_dated_rows 0 Sample.two_platforms
                  19723 19724 eq_refl eq_refl)).
Defined.

(** The multiselect helper of dashboard.py turns an empty selection into
    every option. *)
Lemma multiselect_with_all_no_selection options :
  Dashboard.multiselect_with_all options [] = options.
Proof. reflexivity. Qed.

Lemma multiselect_with_all_sentinel options selected :
  All ∈ selected → Dashboard.multiselect_with_all options selected = options.
Proof.
  intros Hin. unfold Dashboard.multiselect_with_all, Pandas.isin.
  by rewrite bool_decide_true.
Qed.

(** In dashboard.py a multiselect left empty restricts nothing: the
    date range and the platform list alone select the rows. *)
Lemma dashboard_no_selection_no_restriction df lo hi pf :
  Dashboard.filtered_df df [lo; hi] pf
    (Dashboard.multiselect_with_all (Pandas.unique (State <$> df)) [])
    (Dashboard.multiselect_with_all (Pandas.unique (City <$> df)) [])
    (Dashboard.multiselect_with_all (Pandas.unique (Product <$> df)) [])
  = Some (filter (λ r, Spec.date_within lo hi (Date r) ∧ Platform r ∈ pf) df).
Proof.
  unfold Dashboard.filtered_df. simpl. f_equal.
  rewrite !multiselect_with_all_no_selection. unfold Pandas.getitem_mask.
  apply filter_ext_elem_of. intros r Hr.
  rewrite <- (date_mask_within lo hi r). unfold date_mask, Pandas.isin.
  rewrite !andb_True, !bool_decide_spec, !elem_of_unique.
  pose proof (list_elem_of_fmap_2 State _ _ Hr).
  pose proof (list_elem_of_fmap_2 City _ _ Hr).
  pose proof (list_elem_of_fmap_2 Product _ _ Hr).
  tauto.
Qed.

(** In app.py and fashion_dashboard.py an empty selection is not "All":
    the [isin] mask of no value drops every row. *)
Lemma app_no_selection_no_rows data s e ss sc spr :
  App.filtered_data data [s; e] [] ss sc spr = Some [].
Proof.
  rewrite app_filtered_data. f_equal.
  unfold FashionDashboard.filtered_data. simpl.
  by rewrite restrict_no_selection, !restrict_nil.
Qed.

(** C2. The code of app.py at the failing input: on a dataset of two
    records, with the full date range and "All" on the other dimensions,
    the empty Platform selection yields the empty view, where the claim
    asks for "all values"; the helper of dashboard.py does turn the empty
    selection into every option. *)
Theorem app_empty_selection_yields_empty_view :
  App.filtered_data Sample.two_platforms [19723; 19724] [] [All] [All] [All]
  = Some []
  ∧ FashionDashboard.filtered_data Sample.two_platforms (Range 19723 19724)
      [] [All] [All] [All] = []
  ∧ Dashboard.multiselect_with_all
      (Pandas.unique (Product <$> Sample.two_platforms)) []
    = ["Shirt"; "Jeans"].
Proof. repeat split; by_eval. Qed.

(** ** KPI cards *)

Section kpi_facts.

Lemma truediv_pos x n : (0 < n)%nat → Pandas.truediv x n
  = Some (x / Qc_of_Z (Z.of_nat n))%Qc.
Proof. by destruct n; [lia|]. Qed.

(** The guard of [aov] keeps the division away from 0. *)
Lemma aov_per_order_value revenue orders :
  aov_per_order revenue orders
  = Some (if decide (orders = 0%nat) then 0%Qc
          else (revenue / Qc_of_Z (Z.of_nat orders))%Qc).
Proof.
  unfold aov_per_order. case_bool_decide as Hn.
  - rewrite truediv_pos by lia. by rewrite decide_False.
  - rewrite decide_True; [done|]. by destruct (decide (orders = 0%nat)).
Qed.

Lemma nunique_nil : Pandas.nunique [] = 0%nat.
Proof. reflexivity. Qed.

Lemma nunique_le_length s : (Pandas.nunique s ≤ length s)%nat.
Proof.
  unfold Pandas.nunique. induction s as [|x s IH]; [done|].
  rewrite list_to_set_cons. simpl.
  rewrite size_union_alt, size_singleton.
  assert (list_to_set s ∖ {[x]} ⊆ list_to_set (C:=gset string) s) as Hsub
    by apply subseteq_difference_l, reflexivity.
  apply subseteq_size in Hsub. lia.
Qed.

Lemma nunique_pos s : s ≠ [] → (0 < Pandas.nunique s)%nat.
Proof.
  destruct s as [|x s]; [done|]. intros _. unfold Pandas.nunique.
  rewrite list_to_set_cons, size_union_alt, size_singleton. lia.
Qed.

(** The KPI cards of fashion_dashboard.py and of app.py are computed for
    every view: no step of them fails. *)
Lemma fashion_kpis_value view :
  FashionDashboard.kpis view
  = Some (mkKPIs
      (Pandas.sum (Revenue <$> view))
      (Pandas.nunique (Order_ID <$> view))
      (if decide (Pandas.nunique (Order_ID <$> view) = 0%nat) then 0%Qc
       else (Pandas.sum (Revenue <$> view)
             / Qc_of_Z (Z.of_nat (Pandas.nunique (Order_ID <$> view))))%Qc)
      (Pandas.sum (Profit <$> view))
      (Pandas.sum (Quantity <$> view))
      (Pandas.nunique (Customer_ID <$> view))
      (FashionDashboard.cancel_return_count view)).
Proof.
  unfold FashionDashboard.kpis. by rewrite aov_per_order_value.
Qed.

Lemma app_kpis_value view :
  App.kpis view
  = Some (mkKPIs
      (Pandas.sum (Revenue <$> view))
      (Pandas.nunique (Order_ID <$> view))
      (if decide (Pandas.nunique (Order_ID <$> view) = 0%nat) then 0%Qc
       else (Pandas.sum (Revenue <$> view)
             / Qc_of_Z (Z.of_nat (Pandas.nunique (Order_ID <$> view))))%Qc)
      (Pandas.sum (Profit <$> view))
      (Pandas.sum (Quantity <$> view))
      (Pandas.nunique (Customer_ID <$> view))
      (App.return_cancel_orders view)).
Proof.
  unfold App.kpis. by rewrite aov_per_order_value.
Qed.

(** dashboard.py divides by the number of rows. *)
Lemma dashboard_aov_value view :
  Dashboard.aov view
  = Some (Pandas.sum (Revenue <$> view)
          / Qc_of_Z (Z.of_nat (Nat.max (length view) 1)))%Qc.
Proof. unfold Dashboard.aov. apply truediv_pos. lia. Qed.

(** The rows a cancel/return mask keeps are at least as many as their
    distinct orders. *)
Lemma distinct_orders_le_rows (mask : SalesRecord → bool) view :
  (Pandas.nunique (Order_ID <$> Pandas.getitem_mask mask view)
   ≤ length (Pandas.getitem_mask mask view))%nat.
Proof. etrans; [apply nunique_le_length|]. by rewrite length_fmap. Qed.

End kpi_facts.

(** The example scenario of the specification: GMV 300, 2 orders, AOV
    150, quantity 3. *)
Example scenario_kpis :
  FashionDashboard.kpis Sample.two_platforms
  = Some (mkKPIs (Qc_of_Z 300) 2 (Qc_of_Z 150) 0%Qc (Qc_of_Z 3) 2 0).
Proof. by_eval. Qed.

(** C3. The code of dashboard.py at the failing input: for one order of
    two lines of revenue 100 each, its [aov] is 200 / 2 rows = 100, where
    total revenue over the distinct order count is 200 / 1 = 200, the
    value app.py computes. *)
Theorem dashboard_aov_divides_by_row_count :
  Dashboard.aov Sample.two_line_order = Some (Qc_of_Z 100)
  ∧ Pandas.sum (Revenue <$> Sample.two_line_order) = Qc_of_Z 200
  ∧ Pandas.nunique (Order_ID <$> Sample.two_line_order) = 1%nat
  ∧ length Sample.two_line_order = 2%nat
  ∧ aov <$> App.kpis Sample.two_line_order = Some (Qc_of_Z 200).
Proof. repeat split; by_eval. Qed.

(** C4. The code of fashion_dashboard.py at the failing input: for one
    cancelled order of two lines its cancel/return KPI is 2, the number of
    matching rows, where the matching rows hold 1 distinct order; app.py
    counts 1 on the same order under its own status names. *)
Theorem fashion_cancel_return_counts_rows :
  FashionDashboard.cancel_return_count Sample.two_line_order = 2%nat
  ∧ cancel_return_orders <$> FashionDashboard.kpis Sample.two_line_order
    = Some 2%nat
  ∧ Pandas.nunique
      (Order_ID <$> Pandas.getitem_mask
         (λ r, Pandas.isin (Delivery_Status r) ["Cancelled"; "Returned"])
         Sample.two_line_order) = 1%nat
  ∧ App.return_cancel_orders Sample.two_line_cancel = 1%nat.
Proof. repeat split; by_eval. Qed.

(** C7. In fashion_dashboard.py and app.py the empty view is reported by
    the warning "No data available for the selected filters." and by
    nothing else: a view gets the warning exactly when it is empty, and a
    non-empty view gets its KPI cards. The KPI computation itself returns
    for every view, the division of [aov] never meets a zero divisor, and
    on the empty view every KPI is 0, [aov] included. *)
Theorem empty_view_gets_warning_and_zero_kpis :
  let no_data := Warning "No data available for the selected filters." in
  FashionDashboard.render [] = Some no_data
  ∧ App.render [] = Some no_data
  ∧ (∀ view, FashionDashboard.render view = Some no_data ↔ view = [])
  ∧ (∀ view, App.render view = Some no_data ↔ view = [])
  ∧ (∀ view, view ≠ [] →
       ∃ k, FashionDashboard.kpis view = Some k
            ∧ FashionDashboard.render view = Some (Metrics k))
  ∧ (∀ view, view ≠ [] →
       ∃ k, App.kpis view = Some k ∧ App.render view = Some (Metrics k))
  ∧ (∀ view, is_Some (FashionDashboard.kpis view) ∧ is_Some (App.kpis view))
  ∧ FashionDashboard.kpis [] = Some Sample.zero_kpis
  ∧ App.kpis [] = Some Sample.zero_kpis.
Proof.
  intros no_data.
  split; [done|]. split; [done|].
  split.
  { intros [|r view]; [done|]. unfold FashionDashboard.render. simpl.
    rewrite fashion_kpis_value. simpl. split; intros; simplify_eq. }
  split.
  { intros [|r view]; [done|]. unfold App.render. simpl.
    rewrite app_kpis_value. simpl. split; intros; simplify_eq. }
  split.
  { intros [|r view] Hne; [done|]. unfold FashionDashboard.render. simpl.
    rewrite fashion_kpis_value. eauto. }
  split.
  { intros [|r view] Hne; [done|]. unfold App.render. simpl.
    rewrite app_kpis_value. eauto. }
  split.
  { intros view. rewrite fashion_kpis_value, app_kpis_value. eauto. }
  split; by_eval.
Qed.

(** The top script of dashboard.py has no such check: on the empty view
    its cards show zeros, [max(len, 1)] keeping its division defined. *)
Example dashboard_cards_on_empty_view :
  Dashboard.aov [] = Some 0%Qc ∧ Dashboard.return_cancel_count [] = 0%nat.
Proof. split; by_eval. Qed.

(** ** Grouped sums *)

Section sum_facts.

Lemma sum_nil : Pandas.sum [] = 0%Qc.
Proof. reflexivity. Qed.

Lemma sum_cons c s : Pandas.sum (c :: s) = (default 0 c + Pandas.sum s)%Qc.
Proof. reflexivity. Qed.

Lemma sum_perm s1 s2 : s1 ≡ₚ s2 → Pandas.sum s1 = Pandas.sum s2.
Proof.
  induction 1 as [|c s1 s2 _ IH|c d s|s1 s2 s3 _ IH1 _ IH2].
  - done.
  - by rewrite !sum_cons, IH.
  - rewrite !sum_cons. ring.
  - by rewrite IH1.
Qed.


End sum_facts.

Section groupby_facts.

Context {K : Type} `{EqDecision K} (le : relation K) `{!RelDecision le}.

Lemma group_keys_perm (keys : list K) :
  Pandas.group_keys le keys ≡ₚ remove_dups keys.
Proof. apply merge_sort_Permutation. Qed.

Lemma elem_of_group_keys (keys : list K) k :
  k ∈ Pandas.group_keys le keys ↔ k ∈ keys.
Proof. by rewrite group_keys_perm, elem_of_remove_dups. Qed.

Lemma NoDup_group_keys (keys : list K) : NoDup (Pandas.group_keys le keys).
Proof. rewrite group_keys_perm. apply NoDup_remove_dups. Qed.

Lemma groupby_sum_keys {A} (key : A → K) col (df : list A) :
  (Pandas.groupby_sum le key col df).*1 = Pandas.group_keys le (key <$> df).
Proof.
  unfold Pandas.groupby_sum. rewrite <- list_fmap_compose.
  apply list_fmap_id.
Qed.

Lemma length_groupby_sum {A} (key : A → K) col (df : list A) :
  length (Pandas.groupby_sum le key col df)
  = length (Pandas.group_keys le (key <$> df)).
Proof. unfold Pandas.groupby_sum. by rewrite length_fmap. Qed.




End groupby_facts.

(** ** Sorting the group sums *)

Section sort_facts.

Context {K : Type} `{EqDecision K}.

Implicit Types (s : list (K * Qc)) (x y : K * Qc).

Lemma insert_desc_perm x s : Pandas.insert_desc x s ≡ₚ x :: s.
Proof.
  induction s as [|y s IH]; [done|]. simpl.
  destruct (decide (x.2 < y.2)%Qc); [|done].
  rewrite IH. apply Permutation_swap.
Qed.

Lemma sort_values_desc_perm s : Pandas.sort_values_desc s ≡ₚ s.
Proof.
  induction s as [|x s IH]; [done|].
  unfold Pandas.sort_values_desc in *. simpl.
  by rewrite insert_desc_perm, IH.
Qed.



Lemma head_take {A} (n : Z) (l : list A) :
  0 ≤ n → Pandas.head n l = take (Z.to_nat n) l.
Proof. intros. unfold Pandas.head. by rewrite decide_True. Qed.


End sort_facts.

Section sorted_lists.

Context {A : Type} (R : relation A).



Lemma StronglySorted_strict `{!AntiSymm (=) R} (l : list A) :
  StronglySorted R l → NoDup l → StronglySorted (strict R) l.
Proof.
  induction 1 as [|x l Hl IH Hx]; intros Hnd; [constructor|].
  apply NoDup_cons in Hnd as [Hnotin Hnd]. constructor; [by apply IH|].
  rewrite Forall_forall in Hx |- *. intros y Hy. split; [by apply Hx|].
  intros Hyx. assert (x = y) as -> by (apply (anti_symm R); auto).
  done.
Qed.

End sorted_lists.

(** ** Groups keyed by a text column *)

Section string_groups.

Lemma length_group_keys (keys : list string) :
  length (Pandas.group_keys String.le keys) = Pandas.nunique keys.
Proof.
  rewrite group_keys_perm. unfold Pandas.nunique.
  rewrite <- (size_list_to_set (C:=gset string) (remove_dups keys))
    by apply NoDup_remove_dups.
  f_equal. apply set_eq. intros k.
  by rewrite !elem_of_list_to_set, elem_of_remove_dups.
Qed.

(** [groupby] yields its keys in strictly ascending order. *)
Lemma group_keys_ascending (keys : list string) :
  StronglySorted (strict String.le) (Pandas.group_keys String.le keys).
Proof.
  apply StronglySorted_strict; [apply _| |apply NoDup_group_keys].
  apply StronglySorted_merge_sort; apply _.
Qed.


(** The grouped sums do not depend on the order of the rows. *)
Lemma groupby_sum_perm {A} (key : A → string) col (df df' : list A) :
  df ≡ₚ df' →
  Pandas.groupby_sum String.le key col df
  = Pandas.groupby_sum String.le key col df'.
Proof.
  intros Hperm. unfold Pandas.groupby_sum.
  assert (Pandas.group_keys String.le (key <$> df)
          = Pandas.group_keys String.le (key <$> df')) as <-.
  { apply (StronglySorted_unique String.le).
    - apply StronglySorted_merge_sort; apply _.
    - apply StronglySorted_merge_sort; apply _.
    - rewrite !group_keys_perm.
      apply NoDup_Permutation; [apply NoDup_remove_dups..|].
      intros k. by rewrite !elem_of_remove_dups, Hperm. }
  apply list_fmap_ext. intros _ k _. f_equal.
  apply sum_perm. unfold Pandas.group_rows. by rewrite Hperm.
Qed.

Lemma top_groups_perm key col n (df df' : DataFrame) :
  df ≡ₚ df' → top_groups key col n df = top_groups key col n df'.
Proof. intros Hperm. unfold top_groups. by rewrite (groupby_sum_perm _ _ _ _ Hperm). Qed.




End string_groups.

(** ** Claims on the grouped sums *)




(** The specification's example: the top platform by revenue. *)
Example top_platform :
  top_groups Platform Revenue 1 Sample.two_platforms
  = [("Flipkart", Qc_of_Z 200)].
Proof. by_eval. Qed.



(** The specification's example: revenue by platform. *)
Example revenue_by_platform :
  FashionDashboard.rev_platform Sample.two_platforms
  = [("Amazon", Qc_of_Z 100); ("Flipkart", Qc_of_Z 200)]
  ∧ App.rev_platform Sample.two_platforms
    = FashionDashboard.rev_platform Sample.two_platforms.
Proof. split; by_eval. Qed.

(** ** Per-customer exports *)

Section customer_facts.

Lemma filter_fmap {A B} (f : A → B) (P : B → Prop) `{!∀ y, Decision (P y)}
    (l : list A) :
  filter P (f <$> l) = f <$> filter (λ x, P (f x)) l.
Proof.
  induction l as [|x l IH]; [done|].
  rewrite fmap_cons, !filter_cons, IH. by destruct (decide (P (f x))).
Qed.

Lemma fmap_retract {A B} (g : B → A) (f : A → B) (l : list A) :
  (∀ x, g (f x) = x) → g <$> (f <$> l) = l.
Proof.
  intros Hgf. rewrite <- list_fmap_compose.
  rewrite <- (list_fmap_id l) at 2. apply list_fmap_ext. intros; apply Hgf.
Qed.

(** The customers of the two exports of fashion_dashboard.py, read off
    the sorted customer keys. *)
Lemma one_timer_customers view :
  cr_customer <$> FashionDashboard.df_one_timer view
  = filter (λ c, Pandas.nunique
                   (Order_ID <$> Pandas.group_rows Customer_ID c view) = 1%nat)
      (Pandas.group_keys String.le (Customer_ID <$> view)).
Proof.
  unfold FashionDashboard.df_one_timer, FashionDashboard.customer_orders,
    Pandas.getitem_mask.
  rewrite filter_fmap, fmap_retract by done.
  apply list_filter_iff. intros c. simpl. apply bool_decide_spec.
Qed.



End customer_facts.


(** The one-time export of fashion_brand.py groups by customer, name and
    city: a customer with one order in each of two cities is listed in it
    twice, and is a loyal customer for fashion_dashboard.py. *)
Example brand_one_timer_by_city :
  ot_customer <$> FashionBrand.df_one_timer Sample.two_city_customer
  = ["c1"; "c1"]
  ∧ cr_customer <$> FashionDashboard.df_one_timer Sample.two_city_customer
    = []
  ∧ cr_customer <$> FashionDashboard.df_loyal Sample.two_city_customer
    = ["c1"].
Proof. repeat split; by_eval. Qed.

(** ** The scripts' runs *)

Section script_facts.

Import Script.

Lemma extends_trans x s1 s2 s3 :
  extends x s1 s2 → extends x s2 s3 → extends x s1 s3.
Proof.
  intros [Hh12 Hn12] [Hh23 Hn23]. split; [by etrans|].
  intros z Hz. by rewrite Hn23, Hn12.
Qed.

Lemma extends_refl x s : extends x s s.
Proof. by split. Qed.

(** A name other than the one bound still stands for its DataFrame. *)
Lemma frame_of_extends x z s s' D :
  extends x s s' → z ≠ x → frame_of z s = Some D → frame_of z s' = Some D.
Proof.
  intros [Hheap Hnames] Hz. unfold frame_of. rewrite Hnames by done.
  destruct (names s !! z) as [l|]; simpl; [|done].
  intros Hl. by eapply lookup_weaken.
Qed.

Lemma bind_run {A B} (m : M A) (k : A → M B) s a s1 :
  m s = Some (a, s1) → bind m k s = k a s1.
Proof. unfold bind. by intros ->. Qed.

Lemma bind_ret {A B} (a : A) (k : A → M B) s : bind (ret a) k s = k a s.
Proof. reflexivity. Qed.

Lemma load_run x s D : frame_of x s = Some D → load x s = Some (D, s).
Proof.
  unfold frame_of, load. destruct (names s !! x) as [l|]; simpl; [|done].
  by intros ->.
Qed.

(** Binding [x] to a new object that holds [df]. *)
Lemma alloc_assign_run x df s :
  ∃ s', (let* l := alloc df in assign x l) s = Some ((), s')
        ∧ frame_of x s' = Some df ∧ extends x s s'.
Proof.
  eexists. split; [reflexivity|]. split.
  - unfold frame_of. simpl. rewrite lookup_insert_eq. simpl.
    by rewrite lookup_insert_eq.
  - split; simpl.
    + apply insert_subseteq, not_elem_of_dom, is_fresh.
    + intros z Hz. by rewrite lookup_insert_ne.
Qed.

Lemma copy_run x y s D :
  frame_of y s = Some D →
  ∃ s', copy x y s = Some ((), s')
        ∧ frame_of x s' = Some D ∧ extends x s s'.
Proof.
  intros Hy. unfold copy. rewrite (bind_run _ _ _ _ _ (load_run _ _ _ Hy)).
  apply alloc_assign_run.
Qed.

Lemma getitem_run x y mask s D :
  frame_of y s = Some D →
  ∃ s', getitem x y mask s = Some ((), s')
        ∧ frame_of x s' = Some (Pandas.getitem_mask mask D)
        ∧ extends x s s'.
Proof.
  intros Hy. unfold getitem. rewrite (bind_run _ _ _ _ _ (load_run _ _ _ Hy)).
  apply alloc_assign_run.
Qed.

Lemma restrict_stmt_run col selected s D :
  frame_of "filtered_data" s = Some D →
  ∃ s', restrict_stmt col selected s = Some ((), s')
        ∧ frame_of "filtered_data" s' = Some (restrict col selected D)
        ∧ extends "filtered_data" s s'.
Proof.
  intros HD. unfold restrict_stmt, restrict.
  destruct (negb _); [by apply getitem_run|].
  exists s. split; [done|]. split; [done|apply extends_refl].
Qed.

(** The filter of fashion_dashboard.py, run as a script, leaves in
    [filtered_data] what [FashionDashboard.filtered_data] computes from
    the dataset alone. *)
Lemma fashion_filter_run date_range sp ss sc spr s D :
  frame_of "data" s = Some D →
  ∃ s', fashion_filter date_range sp ss sc spr s = Some ((), s')
        ∧ frame_of "filtered_data" s'
          = Some (FashionDashboard.filtered_data D date_range sp ss sc spr)
        ∧ extends "filtered_data" s s'.
Proof.
  intros HD. unfold fashion_filter, FashionDashboard.filtered_data.
  destruct (FashionDashboard.date_bounds date_range) as [lo hi].
  destruct (copy_run "filtered_data" "data" s D HD) as (s0 & R0 & F0 & E0).
  rewrite (bind_run _ _ _ _ _ R0).
  destruct (getitem_run "filtered_data" "filtered_data" (date_mask lo hi)
              s0 _ F0) as (s1 & R1 & F1 & E1).
  rewrite (bind_run _ _ _ _ _ R1).
  destruct (restrict_stmt_run Platform sp s1 _ F1) as (s2 & R2 & F2 & E2).
  rewrite (bind_run _ _ _ _ _ R2).
  destruct (restrict_stmt_run State ss s2 _ F2) as (s3 & R3 & F3 & E3).
  rewrite (bind_run _ _ _ _ _ R3).
  destruct (restrict_stmt_run City sc s3 _ F3) as (s4 & R4 & F4 & E4).
  rewrite (bind_run _ _ _ _ _ R4).
  destruct (restrict_stmt_run Product spr s4 _ F4) as (s5 & R5 & F5 & E5).
  exists s5. split; [done|]. split; [done|].
  repeat (eapply extends_trans; [eassumption|]). done.
Qed.

Lemma fashion_page_total top_n view : is_Some (fashion_page top_n view).
Proof.
  unfold fashion_page, FashionDashboard.render.
  destruct (Pandas.empty view); simpl; [eauto|].
  rewrite fashion_kpis_value. simpl. eauto.
Qed.

(** The whole page of fashion_dashboard.py is computed on every run, from
    the dataset and the widget values alone. *)
Lemma fashion_dashboard_run date_range sp ss sc spr top_n s D :
  frame_of "data" s = Some D →
  ∃ out s',
    fashion_dashboard date_range sp ss sc spr top_n s = Some (out, s')
    ∧ fashion_page top_n
        (FashionDashboard.filtered_data D date_range sp ss sc spr) = Some out
    ∧ extends "filtered_data" s s'.
Proof.
  intros HD. unfold fashion_dashboard.
  destruct (fashion_filter_run date_range sp ss sc spr s D HD)
    as (s' & R & F & E).
  rewrite (bind_run _ _ _ _ _ R), (bind_run _ _ _ _ _ (load_run _ _ _ F)).
  destruct (fashion_page_total top_n
              (FashionDashboard.filtered_data D date_range sp ss sc spr))
    as [out Hout].
  exists out, s'. rewrite Hout. done.
Qed.

(** The filter of dashboard.py, run as a script, returns what
    [Dashboard.filtered_df] computes from the dataset alone, the failure
    on a short [date_range] included. *)
Lemma dashboard_filter_run dates pf ss sc sp s D :
  frame_of "df" s = Some D →
  fst <$> dashboard_filter dates pf ss sc sp s
  = Dashboard.filtered_df D dates pf ss sc sp
  ∧ ∀ v s', dashboard_filter dates pf ss sc sp s = Some (v, s') →
            extends "filtered_df" s s'.
Proof.
  intros HD. unfold dashboard_filter, Dashboard.filtered_df.
  destruct (dates !! 0%nat) as [lo|]; simpl; [|done].
  destruct (dates !! 1%nat) as [hi|]; simpl; [|done].
  rewrite !bind_ret. cbv beta. rewrite ?bind_ret. cbv beta.
  match goal with |- context [getitem ?x ?y ?m] =>
    destruct (getitem_run x y m s D HD) as (s' & R & F & E) end.
  rewrite !(bind_run _ _ _ _ _ R), (load_run _ _ _ F). simpl.
  split; [done|]. by intros v s'' [= _ <-].
Qed.

End script_facts.

(** C9. Every run of the pipeline of fashion_dashboard.py (the filter,
    the KPI cards, the grouped sums, the top-N rankings, the trend and the
    platform-by-SKU table) and of the filter of dashboard.py returns, and
    two runs on the same dataset and the same widget values give the same
    output whatever else Python's state holds; a run adds objects and
    binds its own name, and leaves every object that was there, the source
    dataset among them, as it was. *)
Theorem pipeline_runs_agree_and_keep_dataset
    (s1 s2 : Script.store) (D : DataFrame) (date_range : date_input)
    (dates : list Z) (sp ss sc spr : list string) (top_n : Z) :
  Script.frame_of "data" s1 = Some D → Script.frame_of "data" s2 = Some D →
  Script.frame_of "df" s1 = Some D → Script.frame_of "df" s2 = Some D →
  (∃ out s1' s2',
     Script.fashion_dashboard date_range sp ss sc spr top_n s1
     = Some (out, s1')
     ∧ Script.fashion_dashboard date_range sp ss sc spr top_n s2
       = Some (out, s2')
     ∧ fashion_page top_n
         (FashionDashboard.filtered_data D date_range sp ss sc spr)
       = Some out
     ∧ Script.heap s1 ⊆ Script.heap s1'
     ∧ Script.frame_of "data" s1' = Some D
     ∧ Script.heap s2 ⊆ Script.heap s2'
     ∧ Script.frame_of "data" s2' = Some D)
  ∧ fst <$> Script.dashboard_filter dates sp ss sc spr s1
    = fst <$> Script.dashboard_filter dates sp ss sc spr s2
  ∧ fst <$> Script.dashboard_filter dates sp ss sc spr s1
    = Dashboard.filtered_df D dates sp ss sc spr
  ∧ (∀ v s1', Script.dashboard_filter dates sp ss sc spr s1 = Some (v, s1') →
       Script.heap s1 ⊆ Script.heap s1'
       ∧ Script.frame_of "df" s1' = Some D).
Proof.
  intros Hdata1 Hdata2 Hdf1 Hdf2. split; [|split; [|split]].
  - destruct (fashion_dashboard_run date_range sp ss sc spr top_n s1 D Hdata1)
      as (out1 & s1' & R1 & P1 & E1).
    destruct (fashion_dashboard_run date_range sp ss sc spr top_n s2 D Hdata2)
      as (out2 & s2' & R2 & P2 & E2).
    assert (out2 = out1) as -> by congruence.
    exists out1, s1', s2'. repeat split; try done.
    + apply E1.
    + by eapply frame_of_extends.
    + apply E2.
    + by eapply frame_of_extends.
  - destruct (dashboard_filter_run dates sp ss sc spr s1 D Hdf1) as [-> _].
    by destruct (dashboard_filter_run dates sp ss sc spr s2 D Hdf2) as [-> _].
  - by destruct (dashboard_filter_run dates sp ss sc spr s1 D Hdf1) as [-> _].
  - intros v s1' Hrun.
    destruct (dashboard_filter_run dates sp ss sc spr s1 D Hdf1) as [_ E].
    specialize (E v s1' Hrun). split; [apply E|].
    by eapply frame_of_extends.
Qed.

Lemma pipeline_runs_agree_and_keep_dataset_witness :
  Script.frame_of "data" Sample.loaded = Some Sample.two_platforms
  ∧ Script.frame_of "data" Sample.rerun = Some Sample.two_platforms
  ∧ Script.frame_of "df" Sample.loaded = Some Sample.two_platforms
  ∧ Script.frame_of "df" Sample.rerun = Some Sample.two_platforms
  ∧ fst <$> Script.dashboard_filter [19723; 19724]
              Dashboard.platform_options ["Goa"] ["Panaji"] ["Shirt"]
              Sample.loaded
    = fst <$> Script.dashboard_filter [19723; 19724]
                Dashboard.platform_options ["Goa"] ["Panaji"] ["Shirt"]
                Sample.rerun.
Proof.
  split; [reflexivity|]. split; [reflexivity|].
  split; [reflexivity|]. split; [reflexivity|].
  exact (proj1 (proj2 (pipeline_runs_agree_and_keep_dataset
    Sample.loaded Sample.rerun Sample.two_platforms (Range 19723 19724)
    [19723; 19724] Dashboard.platform_options ["Goa"] ["Panaji"] ["Shirt"] 5
    eq_refl eq_refl eq_refl eq_refl))).
Defined.

(** The two sample states give the same page, the stale [filtered_data]
    of the second notwithstanding. *)
Example same_page_from_both_states :
  fst <$> Script.fashion_dashboard (Range 19723 19724) ["Amazon"] [All]
            [All] [All] 5 Sample.loaded
  = fst <$> Script.fashion_dashboard (Range 19723 19724) ["Amazon"] [All]
              [All] [All] 5 Sample.rerun
  ∧ Script.frame_of "filtered_data" Sample.rerun = Some [Sample.amazon_row].
Proof. split; by_eval. Qed.

(** * Further properties of the scripts *)

(** ** The sidebar and the filter *)

Section sidebar_facts.

Lemma NoDup_unique s : NoDup (Pandas.unique s).
Proof.
  induction s as [|x s IH]; simpl; [constructor|].
  apply NoDup_cons. split; [|by apply NoDup_filter].
  rewrite list_elem_of_filter. tauto.
Qed.

(** Python's [sorted] of [unique()] lists the group keys of [groupby]. *)
Lemma sorted_unique_group_keys (s : list string) :
  merge_sort String.le (Pandas.unique s) = Pandas.group_keys String.le s.
Proof.
  apply (StronglySorted_unique String.le).
  - apply StronglySorted_merge_sort; apply _.
  - apply StronglySorted_merge_sort; apply _.
  - rewrite group_keys_perm, merge_sort_Permutation.
    apply NoDup_Permutation; [apply NoDup_unique|apply NoDup_remove_dups|].
    intros k. by rewrite elem_of_unique, elem_of_remove_dups.
Qed.

Lemma sublist_filter_impl {A} (P Q : A → Prop) `{!∀ x, Decision (P x)}
    `{!∀ x, Decision (Q x)} (l : list A) :
  (∀ x, x ∈ l → P x → Q x) → filter P l `sublist_of` filter Q l.
Proof.
  induction l as [|x l IH]; intros Himpl; [done|].
  rewrite !filter_cons.
  assert (filter P l `sublist_of` filter Q l) as Hl
    by (apply IH; intros y ?; apply Himpl; by right).
  pose proof (Himpl x ltac:(by left)).
  destruct (decide (P x)), (decide (Q x)).
  - by apply sublist_skip.
  - tauto.
  - by apply sublist_cons.
  - done.
Qed.

Lemma filtered_data_bounds data date_range sp ss sc spr :
  FashionDashboard.filtered_data data date_range sp ss sc spr
  = FashionDashboard.filtered_data data
      (Range (FashionDashboard.date_bounds date_range).1
             (FashionDashboard.date_bounds date_range).2) sp ss sc spr.
Proof. by destruct date_range. Qed.

Lemma accepts_wider selected selected' v :
  wider selected selected' →
  Spec.accepts (Spec.of_widget selected) v →
  Spec.accepts (Spec.of_widget selected') v.
Proof.
  unfold wider, Spec.of_widget, Pandas.isin.
  intros [Hall|[Hno Hsub]].
  - by rewrite (bool_decide_true _ Hall).
  - rewrite (bool_decide_false _ Hno). simpl. intros Hv.
    case_bool_decide; simpl; [done|]. by apply Hsub.
Qed.

End sidebar_facts.

(** X1. The options of a multiselect are "All" followed by the distinct
    values of the column, each once and in ascending order; these are the
    group keys of the grouped charts of the whole dataset, in the same
    order, and app.py builds the same list. *)
Theorem sidebar_options_are_sorted_distinct_values
    (col : SalesRecord → string) (data : DataFrame) :
  let opts := Sidebar.options col data in
  head opts = Some All
  ∧ Sidebar.app_options col data = opts
  ∧ StronglySorted (strict String.le) (tail opts)
  ∧ (∀ v, v ∈ tail opts ↔ v ∈ col <$> data)
  ∧ tail opts = (Pandas.groupby_sum String.le col Revenue data).*1.
Proof.
  intros opts.
  assert (opts = All :: Pandas.group_keys String.le (col <$> data)) as ->.
  { unfold opts, Sidebar.options. destruct data as [|r data]; [done|].
    simpl negb. cbv iota. by rewrite sorted_unique_group_keys. }
  split; [done|]. split.
  { unfold Sidebar.app_options. by rewrite sorted_unique_group_keys. }
  simpl. split; [apply group_keys_ascending|].
  split; [intros v; apply elem_of_group_keys|].
  by rewrite groupby_sum_keys.
Qed.

(** X2. Filtering the filtered view again with the same widget values
    returns it unchanged. *)
Theorem filtering_twice_changes_nothing
    (data : DataFrame) (date_range : date_input)
    (sp ss sc spr : list string) :
  let view := FashionDashboard.filtered_data data date_range sp ss sc spr in
  FashionDashboard.filtered_data view date_range sp ss sc spr = view.
Proof.
  intros view. unfold view.
  rewrite !(filtered_data_bounds _ date_range), !filtered_data_filter.
  rewrite list_filter_filter. apply list_filter_iff. tauto.
Qed.

(** X3. Narrowing the widgets narrows the view, and drilling down in two
    steps is drilling down in one: if the date range shrinks and every
    selection lets through no more than before, the new view is what the
    new widget values select from the old view, and it is a subsequence of
    the old view. *)
Theorem narrower_widgets_filter_the_wider_view
    (data : DataFrame) (lo hi lo' hi' : Z)
    (sp ss sc spr sp' ss' sc' spr' : list string) :
  lo' ≤ lo → hi ≤ hi' →
  wider sp sp' → wider ss ss' → wider sc sc' → wider spr spr' →
  let wide :=
    FashionDashboard.filtered_data data (Range lo' hi') sp' ss' sc' spr' in
  let narrow :=
    FashionDashboard.filtered_data data (Range lo hi) sp ss sc spr in
  FashionDashboard.filtered_data wide (Range lo hi) sp ss sc spr = narrow
  ∧ narrow `sublist_of` wide.
Proof.
  intros Hlo Hhi Hp Hs Hc Hpr wide narrow. unfold wide, narrow.
  rewrite !filtered_data_filter.
  assert (∀ r,
    Spec.satisfies (Spec.mkFilterSpec lo hi (Spec.of_widget sp)
      (Spec.of_widget ss) (Spec.of_widget sc) (Spec.of_widget spr)) r →
    Spec.satisfies (Spec.mkFilterSpec lo' hi' (Spec.of_widget sp')
      (Spec.of_widget ss') (Spec.of_widget sc') (Spec.of_widget spr')) r)
    as Himpl.
  { intros r (Hd & H1 & H2 & H3 & H4). unfold Spec.satisfies in *.
    simpl in *. repeat split; eauto using accepts_wider.
    unfold Spec.date_within in *. destruct (Date r); [lia|done]. }
  split.
  - rewrite list_filter_filter. apply list_filter_iff. intros r.
    specialize (Himpl r). tauto.
  - apply sublist_filter_impl. auto.
Qed.

Lemma narrower_widgets_filter_the_wider_view_witness :
  19723 ≤ 19723 ∧ 19723 ≤ 19724
  ∧ wider ["Amazon"] [All] ∧ wider [All] [All]
  ∧ FashionDashboard.filtered_data
      (FashionDashboard.filtered_data Sample.two_platforms
         (Range 19723 19724) [All] [All] [All] [All])
      (Range 19723 19723) ["Amazon"] [All] [All] [All]
    = FashionDashboard.filtered_data Sample.two_platforms
        (Range 19723 19723) ["Amazon"] [All] [All] [All].
Proof.
  assert (wider ["Amazon"] [All]) as H1 by (left; by_eval).
  assert (wider [All] [All]) as H2 by (left; by_eval).
  split; [lia|]. split; [lia|]. split; [exact H1|]. split; [exact H2|].
  exact (proj1 (narrower_widgets_filter_the_wider_view Sample.two_platforms
    19723 19723 19723 19724 ["Amazon"] [All] [All] [All] [All] [All] [All]
    [All] ltac:(lia) ltac:(lia) H1 H2 H2 H2)).
Defined.

(** X4. A date range whose start lies after its end empties the view in
    all three filters, whatever the selections. *)
Theorem inverted_date_range_empties_view
    (data : DataFrame) (lo hi : Z) (sp ss sc spr : list string) :
  hi < lo →
  FashionDashboard.filtered_data data (Range lo hi) sp ss sc spr = []
  ∧ App.filtered_data data [lo; hi] sp ss sc spr = Some []
  ∧ Dashboard.filtered_df data [lo; hi] sp ss sc spr = Some [].
Proof.
  intros Hinv.
  assert (∀ r : SalesRecord, ¬ date_mask lo hi r) as Hnone.
  { intros r. rewrite date_mask_within. unfold Spec.date_within.
    destruct (Date r); [lia|tauto]. }
  assert (FashionDashboard.filtered_data data (Range lo hi) sp ss sc spr = [])
    as Hfd.
  { rewrite filtered_data_filter.
    induction data as [|r data IH]; [done|].
    rewrite filter_cons_False; [done|].
    intros [Hd _]. apply (Hnone r). by apply date_mask_within. }
  split; [done|]. split; [by rewrite app_filtered_data, Hfd|].
  clear Hfd.
  unfold Dashboard.filtered_df. simpl. f_equal. unfold Pandas.getitem_mask.
  induction data as [|r data IH]; [done|].
  rewrite filter_cons_False; [done|].
  rewrite !andb_True. intros [[[[Hd _] _] _] _].
  apply (Hnone r). unfold date_mask. by rewrite andb_True.
Qed.

Lemma inverted_date_range_empties_view_witness :
  19723 < 19724
  ∧ FashionDashboard.filtered_data Sample.two_platforms (Range 19724 19723)
      [All] [All] [All] [All] = [].
Proof.
  split; [lia|].
  exact (proj1 (inverted_date_range_empties_view Sample.two_platforms
    19724 19723 [All] [All] [All] [All] ltac:(lia))).
Defined.


(** X6. app.py and dashboard.py index the date widget's value twice: their
    filters fail exactly when it holds fewer than two dates (a range whose
    end is not picked yet), and otherwise use its first two entries. *)
Theorem short_date_tuple_fails
    (data : DataFrame) (dates : list Z) (sp ss sc spr : list string) :
  (is_Some (App.filtered_data data dates sp ss sc spr)
   ↔ (2 ≤ length dates)%nat)
  ∧ (is_Some (Dashboard.filtered_df data dates sp ss sc spr)
     ↔ (2 ≤ length dates)%nat)
  ∧ App.filtered_data data dates sp ss sc spr
    = App.filtered_data data (take 2 dates) sp ss sc spr
  ∧ Dashboard.filtered_df data dates sp ss sc spr
    = Dashboard.filtered_df data (take 2 dates) sp ss sc spr.
Proof.
  unfold App.filtered_data, Dashboard.filtered_df.
  destruct dates as [|lo [|hi dates]]; simpl;
    repeat split; intros; try lia; try done;
    try (by eapply is_Some_None); eauto.
Qed.

(** ** The filter of dashboard.py *)

Section dashboard_filter_facts.

(** A multiselect of dashboard.py, as a test on a row of the dataset it
    was built from. *)
Lemma multiselect_with_all_accepts (col : SalesRecord → string)
    (df : DataFrame) selected r :
  r ∈ df →
  Pandas.isin (col r)
    (Dashboard.multiselect_with_all (Pandas.unique (col <$> df)) selected)
  ↔ Spec.accepts (Spec.of_widget (empty_as_all selected)) (col r).
Proof.
  intros Hr.
  assert (col r ∈ Pandas.unique (col <$> df)) as Hin
    by (apply elem_of_unique; by apply list_elem_of_fmap_2).
  unfold Dashboard.multiselect_with_all, empty_as_all, Spec.of_widget,
    Pandas.isin.
  destruct selected as [|v selected]; simpl.
  - split; [done|]. intros _. by apply bool_decide_spec.
  - rewrite orb_false_r.
    destruct (bool_decide (All ∈ v :: selected)); simpl.
    + split; [done|]. intros _. by apply bool_decide_spec.
    + apply bool_decide_spec.
Qed.

Lemma platform_filter_accepts sidebar v :
  (sidebar = All → v ∈ Dashboard.platform_options) →
  Pandas.isin v (Dashboard.platform_filter sidebar)
  ↔ Spec.accepts (Spec.of_widget [sidebar]) v.
Proof.
  intros Hknown. destruct (decide (sidebar = All)) as [->|Hne].
  - change (Dashboard.platform_filter All) with Dashboard.platform_options.
    change (Spec.of_widget [All]) with Spec.AllValues. simpl.
    unfold Pandas.isin. rewrite bool_decide_spec. split; auto.
  - unfold Dashboard.platform_filter, Spec.of_widget, Pandas.isin.
    rewrite (bool_decide_false (sidebar = All)) by done.
    rewrite (bool_decide_false (All ∈ [sidebar])).
    + simpl. apply bool_decide_spec.
    + intros Heq%list_elem_of_singleton. congruence.
Qed.

(** The platform test of dashboard.py lets through the listed platforms
    alone. *)
Lemma filtered_df_platform_listed df dates sidebar ss sc sp view :
  sidebar ∈ All :: Dashboard.platform_options →
  Dashboard.filtered_df df dates (Dashboard.platform_filter sidebar) ss sc sp
  = Some view →
  ∀ r, r ∈ view → Platform r ∈ Dashboard.platform_options.
Proof.
  intros Hside Hview r Hr. unfold Dashboard.filtered_df in Hview.
  destruct (dates !! 0%nat) as [lo|]; simpl in Hview; [|done].
  destruct (dates !! 1%nat) as [hi|]; simpl in Hview; [|done].
  simplify_eq. unfold Pandas.getitem_mask in Hr.
  apply list_elem_of_filter in Hr as [Hmask _].
  rewrite !andb_True in Hmask. destruct Hmask as [[[[_ Hpl] _] _] _].
  unfold Pandas.isin, Dashboard.platform_filter in Hpl.
  apply bool_decide_spec in Hpl. case_bool_decide as Hall; [done|].
  apply list_elem_of_singleton in Hpl as ->.
  apply elem_of_cons in Hside as [?|?]; done.
Qed.

End dashboard_filter_facts.

(** X7. Whatever the sidebar's platform selector holds among its options
    ("All" or one of the three platforms written into the script), the view
    of dashboard.py only has records of those three platforms: under "All"
    a record of any other platform is dropped. *)
Theorem dashboard_keeps_listed_platforms_only
    (df : DataFrame) (dates : list Z) (sidebar : string)
    (ss sc sp : list string) (view : DataFrame) :
  sidebar ∈ All :: Dashboard.platform_options →
  Dashboard.filtered_df df dates (Dashboard.platform_filter sidebar) ss sc sp
  = Some view →
  ∀ r, r ∈ view → Platform r ∈ Dashboard.platform_options.
Proof. apply filtered_df_platform_listed. Qed.

Lemma dashboard_keeps_listed_platforms_only_witness :
  All ∈ All :: Dashboard.platform_options
  ∧ Dashboard.filtered_df
      (Sample.row "9" "c9" (Some 19723) "Myntra" "Shirt" 10 1 "Delivered"
       :: Sample.two_platforms)
      [19723; 19724] (Dashboard.platform_filter All)
      ["Goa"] ["Panaji"] ["Shirt"; "Jeans"]
    = Some Sample.two_platforms
  ∧ ∀ r, r ∈ Sample.two_platforms → Platform r ∈ Dashboard.platform_options.
Proof.
  assert (All ∈ All :: Dashboard.platform_options) as Hside by (by left).
  assert (Dashboard.filtered_df
      (Sample.row "9" "c9" (Some 19723) "Myntra" "Shirt" 10 1 "Delivered"
       :: Sample.two_platforms)
      [19723; 19724] (Dashboard.platform_filter All)
      ["Goa"] ["Panaji"] ["Shirt"; "Jeans"]
    = Some Sample.two_platforms) as Hview by by_eval.
  split; [exact Hside|]. split; [exact Hview|].
  exact (dashboard_keeps_listed_platforms_only _ _ _ _ _ _ _ Hside Hview).
Defined.

(** X8. On a dataset whose platforms are the three written into
    dashboard.py, its filter is the filter of fashion_dashboard.py with the
    sidebar's platform as the one selected platform and every multiselect
    left empty read as "All". *)
Theorem dashboard_filter_is_fashion_filter
    (df : DataFrame) (lo hi : Z) (sidebar : string)
    (selected_state selected_city selected_product : list string) :
  (∀ r, r ∈ df → Platform r ∈ Dashboard.platform_options) →
  Dashboard.filtered_df df [lo; hi] (Dashboard.platform_filter sidebar)
    (Dashboard.multiselect_with_all (Pandas.unique (State <$> df))
       selected_state)
    (Dashboard.multiselect_with_all (Pandas.unique (City <$> df))
       selected_city)
    (Dashboard.multiselect_with_all (Pandas.unique (Product <$> df))
       selected_product)
  = Some (FashionDashboard.filtered_data df (Range lo hi) [sidebar]
            (empty_as_all selected_state) (empty_as_all selected_city)
            (empty_as_all selected_product)).
Proof.
  intros Hknown. rewrite filtered_data_filter.
  unfold Dashboard.filtered_df. simpl. f_equal. unfold Pandas.getitem_mask.
  apply filter_ext_elem_of. intros r Hr.
  rewrite !andb_True.
  rewrite (multiselect_with_all_accepts State df _ r Hr).
  rewrite (multiselect_with_all_accepts City df _ r Hr).
  rewrite (multiselect_with_all_accepts Product df _ r Hr).
  rewrite (platform_filter_accepts sidebar (Platform r)) by auto.
  unfold Spec.satisfies. simpl. rewrite <- date_mask_within.
  unfold date_mask. rewrite andb_True. tauto.
Qed.

Lemma dashboard_filter_is_fashion_filter_witness :
  (∀ r, r ∈ Sample.two_platforms → Platform r ∈ Dashboard.platform_options)
  ∧ Dashboard.filtered_df Sample.two_platforms [19723; 19724]
      (Dashboard.platform_filter "Amazon")
      (Dashboard.multiselect_with_all
         (Pandas.unique (State <$> Sample.two_platforms)) [])
      (Dashboard.multiselect_with_all
         (Pandas.unique (City <$> Sample.two_platforms)) [All])
      (Dashboard.multiselect_with_all
         (Pandas.unique (Product <$> Sample.two_platforms)) ["Shirt"])
    = Some (FashionDashboard.filtered_data Sample.two_platforms
              (Range 19723 19724) ["Amazon"] (empty_as_all [])
              (empty_as_all [All]) (empty_as_all ["Shirt"])).
Proof.
  assert (∀ r, r ∈ Sample.two_platforms →
               Platform r ∈ Dashboard.platform_options) as Hknown.
  { intros r Hr. unfold Sample.two_platforms in Hr.
    repeat (apply elem_of_cons in Hr as [->|Hr]; [by_eval|]).
    by apply not_elem_of_nil in Hr. }
  split; [exact Hknown|].
  exact (dashboard_filter_is_fashion_filter Sample.two_platforms 19723 19724
           "Amazon" [] [All] ["Shirt"] Hknown).
Defined.

(** ** Relations between the KPI cards *)

Section kpi_relations.

Lemma nunique_mono (s s' : list string) :
  s ⊆ s' → (Pandas.nunique s ≤ Pandas.nunique s')%nat.
Proof.
  intros Hsub. unfold Pandas.nunique. apply subseteq_size.
  intros x. rewrite !elem_of_list_to_set. apply Hsub.
Qed.

(** A column has as many distinct values as cells exactly when no value
    repeats. *)
Lemma nunique_length_NoDup (s : list string) :
  Pandas.nunique s = length s ↔ NoDup s.
Proof.
  split; [|apply size_list_to_set].
  induction s as [|x s IH]; intros Heq; [constructor|].
  pose proof (nunique_le_length s) as Hle.
  unfold Pandas.nunique in *. rewrite list_to_set_cons in Heq. simpl in Heq.
  rewrite size_union_alt, size_singleton in Heq.
  assert (list_to_set s ∖ {[x]} ⊆ list_to_set (C:=gset string) s) as Hsub
    by apply subseteq_difference_l, reflexivity.
  pose proof (subseteq_size _ _ Hsub) as Hsize.
  assert (size (list_to_set (C:=gset string) s ∖ {[x]})
          = size (list_to_set (C:=gset string) s)) as Hsame by lia.
  constructor.
  - intros Hx.
    assert (list_to_set (C:=gset string) s ∖ {[x]} ⊂ list_to_set s) as Hstrict.
    { split; [done|]. intros Hback.
      assert (x ∈ list_to_set (C:=gset string) s ∖ {[x]}) as Hbad
        by (apply Hback; by apply elem_of_list_to_set).
      apply elem_of_difference in Hbad as [_ Hbad].
      apply Hbad. by apply elem_of_singleton. }
    apply subset_size in Hstrict. lia.
  - apply IH. lia.
Qed.


End kpi_relations.



(** X10. The counting cards never exceed what they count from: orders and
    customers are at most the rows of the view, the cancel/return orders
    of app.py are at most its orders, and the cancel/return count of
    fashion_dashboard.py is at most the rows and at least the distinct
    orders among the cancelled or returned rows. *)
Theorem counting_cards_bounds (view : DataFrame) :
  (Pandas.nunique (Order_ID <$> view) ≤ length view)%nat
  ∧ (Pandas.nunique (Customer_ID <$> view) ≤ length view)%nat
  ∧ (App.return_cancel_orders view ≤ Pandas.nunique (Order_ID <$> view))%nat
  ∧ (FashionDashboard.cancel_return_count view ≤ length view)%nat
  ∧ (Pandas.nunique
       (Order_ID <$> Pandas.getitem_mask
          (λ r, Pandas.isin (Delivery_Status r) ["Cancelled"; "Returned"])
          view)
     ≤ FashionDashboard.cancel_return_count view)%nat.
Proof.
  split; [|split; [|split; [|split]]].
  - etrans; [apply nunique_le_length|]. by rewrite length_fmap.
  - etrans; [apply nunique_le_length|]. by rewrite length_fmap.
  - unfold App.return_cancel_orders, Pandas.getitem_mask.
    apply nunique_mono. intros o (r & -> & Hr)%list_elem_of_fmap.
    apply list_elem_of_filter in Hr as [_ Hr]. by apply list_elem_of_fmap_2.
  - unfold FashionDashboard.cancel_return_count, Pandas.getitem_mask.
    apply length_filter.
  - apply distinct_orders_le_rows.
Qed.

(** X11. The cancel/return card of fashion_dashboard.py, which counts
    rows, shows the number of distinct cancelled or returned orders
    exactly when each such order has a single cancelled or returned row. *)
Theorem cancel_return_rows_are_orders_iff_one_row_each (view : DataFrame) :
  let matching :=
    Pandas.getitem_mask
      (λ r, Pandas.isin (Delivery_Status r) ["Cancelled"; "Returned"]) view in
  FashionDashboard.cancel_return_count view
  = Pandas.nunique (Order_ID <$> matching)
  ↔ NoDup (Order_ID <$> matching).
Proof.
  intros matching. unfold FashionDashboard.cancel_return_count.
  fold matching. rewrite <- nunique_length_NoDup, length_fmap.
  split; intros; by symmetry.
Qed.

(** X12. The AOV card of dashboard.py, which divides by the number of
    rows, is the AOV of fashion_dashboard.py and app.py on every view in
    which each row is an order of its own. *)
Theorem dashboard_aov_is_aov_when_rows_are_orders (view : DataFrame) :
  NoDup (Order_ID <$> view) →
  Dashboard.aov view = aov <$> FashionDashboard.kpis view
  ∧ Dashboard.aov view = aov <$> App.kpis view.
Proof.
  intros Hnd. rewrite dashboard_aov_value, fashion_kpis_value, app_kpis_value.
  simpl. apply nunique_length_NoDup in Hnd. rewrite Hnd, length_fmap.
  destruct view as [|r view]; simpl.
  - split; f_equal; apply Qc_is_canon; reflexivity.
  - rewrite Nat.max_l by lia. done.
Qed.

Lemma dashboard_aov_is_aov_when_rows_are_orders_witness :
  NoDup (Order_ID <$> Sample.two_platforms)
  ∧ Dashboard.aov Sample.two_platforms
    = aov <$> FashionDashboard.kpis Sample.two_platforms.
Proof.
  assert (NoDup (Order_ID <$> Sample.two_platforms)) as Hnd by by_eval.
  split; [exact Hnd|].
  exact (proj1 (dashboard_aov_is_aov_when_rows_are_orders
                  Sample.two_platforms Hnd)).
Defined.

(** ** Rankings *)



(** X14. Raising the Top-N slider only appends rows to a ranking, and
    once N reaches the number of groups the ranking holds every group and
    no longer changes. *)
Theorem raising_top_n_appends_rows
    (view : DataFrame) (key : SalesRecord → string)
    (col : SalesRecord → option Qc) (n m : Z) :
  1 ≤ n → n ≤ m →
  top_groups key col n view `prefix_of` top_groups key col m view
  ∧ (Z.of_nat (Pandas.nunique (key <$> view)) ≤ n →
     top_groups key col m view = top_groups key col n view
     ∧ top_groups key col n view
       ≡ₚ Pandas.groupby_sum String.le key col view).
Proof.
  intros Hn Hm. unfold top_groups. rewrite !head_take by lia.
  set (sorted := Pandas.sort_values_desc
                   (Pandas.groupby_sum String.le key col view)).
  split.
  - replace (take (Z.to_nat n) sorted)
      with (take (Z.to_nat n) (take (Z.to_nat m) sorted)).
    + apply prefix_take.
    + rewrite take_take. f_equal. lia.
  - intros Hall.
    assert (length sorted = Pandas.nunique (key <$> view)) as Hlen.
    { unfold sorted.
      by rewrite sort_values_desc_perm, length_groupby_sum, length_group_keys. }
    rewrite !take_ge by lia. split; [done|]. apply sort_values_desc_perm.
Qed.

Lemma raising_top_n_appends_rows_witness :
  1 ≤ 1 ∧ 1 ≤ 2
  ∧ top_groups Platform Revenue 1 Sample.two_platforms
    `prefix_of` top_groups Platform Revenue 2 Sample.two_platforms.
Proof.
  split; [lia|]. split; [lia|].
  exact (proj1 (raising_top_n_appends_rows Sample.two_platforms Platform
                  Revenue 1 2 ltac:(lia) ltac:(lia))).
Defined.

(** ** Grouping under any total order of the keys *)

Section ordered_groups.

Context {K : Type} `{EqDecision K} (le : relation K) `{!RelDecision le}
  `{!PartialOrder le} `{!Total le}.








End ordered_groups.

Section pair_order.

Context {A B : Type} `{EqDecision A} (leA : relation A) (leB : relation B)
  `{!PartialOrder leA, !PartialOrder leB, !Total leA, !Total leB}.

Global Instance pair_le_po : PartialOrder (Pandas.pair_le leA leB).
Proof.
  split; [split|].
  - intros x. split; [done|]. by intros _.
  - intros x y z [Hxy Hxy'] [Hyz Hyz']. split; [by etrans|].
    intros Hxz.
    assert (x.1 = y.1) as Heq.
    { apply (anti_symm leA); [done|]. by rewrite Hxz. }
    etrans; [by apply Hxy'|]. apply Hyz'. by rewrite <- Heq.
  - intros [x1 x2] [y1 y2] [Hxy Hxy'] [Hyx Hyx']. simpl in *.
    assert (x1 = y1) as -> by by apply (anti_symm leA).
    f_equal. apply (anti_symm leB); auto.
Qed.

Global Instance pair_le_total : Total (Pandas.pair_le leA leB).
Proof.
  intros x y. unfold Pandas.pair_le.
  destruct (decide (x.1 = y.1)) as [Heq|Hne].
  - destruct (total leB x.2 y.2).
    + left. split; [by rewrite Heq|done].
    + right. split; [by rewrite Heq|done].
  - destruct (total leA x.1 y.1).
    + left. split; [done|]. by intros ?.
    + right. split; [done|]. by intros ?.
Qed.

End pair_order.

(** ** The page and the order of the rows *)

Section row_order.







End row_order.






(** ** The per-customer exports and the cards *)

Section export_facts.




End export_facts.


(** X20. Every customer of the one-time export of fashion_dashboard.py is
    a customer of the one-time export of fashion_brand.py, which groups by
    customer, name and city. *)
Theorem one_timers_are_brand_one_timers (view : DataFrame) (c : string) :
  c ∈ cr_customer <$> FashionDashboard.df_one_timer view →
  c ∈ ot_customer <$> FashionBrand.df_one_timer view.
Proof.
  rewrite one_timer_customers, list_elem_of_filter, elem_of_group_keys.
  intros [Hone (r & -> & Hr)%list_elem_of_fmap].
  set (k := FashionBrand.customer_key r).
  set (rows := Pandas.group_rows FashionBrand.customer_key k view).
  assert (r ∈ rows) as Hrow by by apply list_elem_of_filter.
  assert (Pandas.nunique (Order_ID <$> rows) = 1%nat) as Horders.
  { assert (0 < Pandas.nunique (Order_ID <$> rows))%nat.
    { apply nunique_pos. destruct rows; [by apply not_elem_of_nil in Hrow|done]. }
    assert (Pandas.nunique (Order_ID <$> rows)
            ≤ Pandas.nunique
                (Order_ID <$> Pandas.group_rows Customer_ID (Customer_ID r)
                                view))%nat.
    { apply nunique_mono. intros o (r' & -> & Hr')%list_elem_of_fmap.
      apply list_elem_of_fmap_2.
      apply list_elem_of_filter in Hr' as [Hk Hr'].
      apply list_elem_of_filter. split; [|done].
      unfold k, FashionBrand.customer_key in Hk. by simplify_eq. }
    lia. }
  apply list_elem_of_fmap.
  exists (mkOneTimerRow k.1.1 k.1.2 k.2
            (Pandas.sum (Profit <$> rows)) (Pandas.sum (Quantity <$> rows))
            (Pandas.nunique (Order_ID <$> rows))).
  split; [done|].
  unfold FashionBrand.df_one_timer, Pandas.getitem_mask.
  apply list_elem_of_filter. split.
  - simpl. by apply bool_decide_spec.
  - apply list_elem_of_fmap. exists k. split; [done|].
    apply elem_of_group_keys. by apply list_elem_of_fmap_2.
Qed.

Lemma one_timers_are_brand_one_timers_witness :
  "c1" ∈ cr_customer <$> FashionDashboard.df_one_timer Sample.two_platforms
  ∧ "c1" ∈ ot_customer <$> FashionBrand.df_one_timer Sample.two_platforms.
Proof.
  assert ("c1" ∈ cr_customer
                   <$> FashionDashboard.df_one_timer Sample.two_platforms)
    as Hone by by_eval.
  split; [exact Hone|].
  exact (one_timers_are_brand_one_timers Sample.two_platforms "c1" Hone).
Defined.

(** ** The objects the filter binds *)

Section object_facts.

Import Script.

Lemma bind_inv {A B} (m : M A) (k : A → M B) s r :
  bind m k s = Some r → ∃ a s1, m s = Some (a, s1) ∧ k a s1 = Some r.
Proof.
  unfold bind. destruct (m s) as [[a s1]|]; [|done]. eauto.
Qed.

(** [x = y.copy()] and [x = y[mask]] bind [x] to an object that did not
    exist before, and add to the heap. *)
Lemma alloc_assign_new x df s s' :
  (let* l := alloc df in assign x l) s = Some ((), s') →
  names s' !! x = Some (fresh (dom (heap s)))
  ∧ dom (heap s) ⊆ dom (heap s').
Proof.
  intros [= <-]. simpl. split; [apply lookup_insert_eq|].
  rewrite dom_insert_L. set_solver.
Qed.

Lemma copy_new x y s s' :
  copy x y s = Some ((), s') →
  names s' !! x = Some (fresh (dom (heap s)))
  ∧ dom (heap s) ⊆ dom (heap s').
Proof.
  unfold copy. intros (df & s1 & Hload & Hrun)%bind_inv.
  unfold load in Hload.
  destruct (names s !! y) as [l|]; simpl in Hload; [|done].
  destruct (heap s !! l); simpl in Hload; [|done].
  simplify_eq. by apply alloc_assign_new in Hrun.
Qed.

Lemma getitem_new x y mask s s' :
  getitem x y mask s = Some ((), s') →
  names s' !! x = Some (fresh (dom (heap s)))
  ∧ dom (heap s) ⊆ dom (heap s').
Proof.
  unfold getitem. intros (df & s1 & Hload & Hrun)%bind_inv.
  unfold load in Hload.
  destruct (names s !! y) as [l|]; simpl in Hload; [|done].
  destruct (heap s !! l); simpl in Hload; [|done].
  simplify_eq. by apply alloc_assign_new in Hrun.
Qed.

(** A statement of the filter keeps [filtered_data] on an object made
    during the run. *)
Lemma restrict_stmt_new col selected (old : gset nat) s s' :
  old ⊆ dom (heap s) →
  (∃ l, names s !! "filtered_data" = Some l ∧ l ∉ old) →
  restrict_stmt col selected s = Some ((), s') →
  old ⊆ dom (heap s')
  ∧ ∃ l, names s' !! "filtered_data" = Some l ∧ l ∉ old.
Proof.
  intros Hold Hnew. unfold restrict_stmt. destruct (negb _).
  - intros [Hl Hdom]%getitem_new. split; [by etrans|].
    eexists. split; [done|]. intros Hin. apply Hold in Hin.
    by apply is_fresh in Hin.
  - intros [= <-]. done.
Qed.

End object_facts.

(** X21. The filter of fashion_dashboard.py never leaves [filtered_data]
    on the dataset's object: after every run, also one that filters
    nothing out, [filtered_data] is bound to an object made during the run
    and [data] is bound to the object it was bound to. *)
Theorem filtered_data_is_a_new_object
    (s s' : Script.store) (D : DataFrame) (date_range : date_input)
    (sp ss sc spr : list string) :
  Script.frame_of "data" s = Some D →
  Script.fashion_filter date_range sp ss sc spr s = Some ((), s') →
  ∃ l, Script.names s' !! "filtered_data" = Some l
       ∧ (l ∉ dom (Script.heap s))
       ∧ (Script.names s' !! "data") = (Script.names s !! "data")
       ∧ (Script.names s' !! "data") ≠ Some l.
Proof.
  intros Hdata Hrun.
  destruct (fashion_filter_run date_range sp ss sc spr s D Hdata)
    as (s'' & Hrun' & _ & [_ Hnames]).
  rewrite Hrun in Hrun'. injection Hrun' as <-.
  unfold Script.fashion_filter in Hrun.
  destruct (FashionDashboard.date_bounds date_range) as [lo hi].
  apply bind_inv in Hrun as ([] & s0 & H0 & Hrun).
  apply bind_inv in Hrun as ([] & s1 & H1 & Hrun).
  apply bind_inv in Hrun as ([] & s2 & H2 & Hrun).
  apply bind_inv in Hrun as ([] & s3 & H3 & Hrun).
  apply bind_inv in Hrun as ([] & s4 & H4 & Hrun).
  apply copy_new in H0 as [_ Hd0].
  apply getitem_new in H1 as [Hl1 Hd1].
  assert (dom (Script.heap s) ⊆ dom (Script.heap s1)) as Hold1 by by etrans.
  assert (∃ l, Script.names s1 !! "filtered_data" = Some l
               ∧ l ∉ dom (Script.heap s)) as Hnew1.
  { eexists. split; [done|]. intros Hin. apply Hd0 in Hin.
    by apply is_fresh in Hin. }
  destruct (restrict_stmt_new _ _ _ _ _ Hold1 Hnew1 H2) as [Hold2 Hnew2].
  destruct (restrict_stmt_new _ _ _ _ _ Hold2 Hnew2 H3) as [Hold3 Hnew3].
  destruct (restrict_stmt_new _ _ _ _ _ Hold3 Hnew3 H4) as [Hold4 Hnew4].
  destruct (restrict_stmt_new _ _ _ _ _ Hold4 Hnew4 Hrun) as [_ (l & Hl & Hout)].
  exists l. split; [done|]. split; [done|].
  rewrite Hnames by done. split; [done|].
  unfold Script.frame_of in Hdata.
  destruct (Script.names s !! "data") as [ld|]; simpl in Hdata; [|done].
  intros [= ->]. apply Hout. apply elem_of_dom. eauto.
Qed.

Lemma filtered_data_is_a_new_object_witness :
  Script.frame_of "data" Sample.loaded = Some Sample.two_platforms
  ∧ Script.fashion_filter (Range 19723 19724) [All] [All] [All] [All]
      Sample.loaded
    = Some ((), Script.mkStore
                  {[ 0%nat := Sample.two_platforms;
                     1%nat := Sample.two_platforms;
                     2%nat := Sample.two_platforms ]}
                  {[ "data" := 0%nat; "df" := 0%nat;
                     "filtered_data" := 2%nat ]})
  ∧ ∃ l, ({[ "data" := 0%nat; "df" := 0%nat; "filtered_data" := 2%nat ]}
            : gmap string nat) !! "filtered_data" = Some l
         ∧ l ∉ dom (Script.heap Sample.loaded).
Proof.
  assert (Script.fashion_filter (Range 19723 19724) [All] [All] [All] [All]
      Sample.loaded
    = Some ((), Script.mkStore
                  {[ 0%nat := Sample.two_platforms;
                     1%nat := Sample.two_platforms;
                     2%nat := Sample.two_platforms ]}
                  {[ "data" := 0%nat; "df" := 0%nat;
                     "filtered_data" := 2%nat ]})) as Hrun.
  { vm_compute. reflexivity. }
  split; [reflexivity|]. split; [exact Hrun|].
  destruct (filtered_data_is_a_new_object Sample.loaded _
              Sample.two_platforms _ _ _ _ _ eq_refl Hrun)
    as (l & Hl & Hout & _).
  exists l. split; [exact Hl|exact Hout].
Defined.

(** ** The platform chart of dashboard.py and the offered values *)



Lemma options_group_keys (col : SalesRecord → string) (data : DataFrame) :
  Sidebar.options col data
  = All :: Pandas.group_keys String.le (col <$> data).
Proof.
  unfold Sidebar.options. destruct data as [|r data]; [done|].
  simpl negb. cbv iota. by rewrite sorted_unique_group_keys.
Qed.

(** X23. Selecting every value a multiselect offers is selecting "All":
    with the platform widget holding all its options but "All", the view
    is the view under "All", and likewise for the states, the cities and
    the products. *)
Theorem selecting_every_option_is_all
    (data : DataFrame) (date_range : date_input)
    (sp ss sc spr : list string) :
  FashionDashboard.filtered_data data date_range
    (tail (Sidebar.options Platform data)) ss sc spr
  = FashionDashboard.filtered_data data date_range [All] ss sc spr
  ∧ FashionDashboard.filtered_data data date_range
      sp (tail (Sidebar.options State data)) sc spr
    = FashionDashboard.filtered_data data date_range sp [All] sc spr
  ∧ FashionDashboard.filtered_data data date_range
      sp ss (tail (Sidebar.options City data)) spr
    = FashionDashboard.filtered_data data date_range sp ss [All] spr
  ∧ FashionDashboard.filtered_data data date_range
      sp ss sc (tail (Sidebar.options Product data))
    = FashionDashboard.filtered_data data date_range sp ss sc [All].
Proof.
  assert (∀ (col : SalesRecord → string) r, r ∈ data →
    Spec.accepts (Spec.of_widget (tail (Sidebar.options col data))) (col r)
    ↔ Spec.accepts (Spec.of_widget [All]) (col r)) as Hsame.
  { intros col r Hr. split; [done|]. intros _.
    assert (col r ∈ tail (Sidebar.options col data)) as Hin.
    { rewrite options_group_keys. simpl.
      apply elem_of_group_keys. by apply list_elem_of_fmap_2. }
    unfold Spec.of_widget. destruct (Pandas.isin All _); done. }
  rewrite !(filtered_data_bounds _ date_range), !filtered_data_filter.
  repeat split; apply filter_ext_elem_of; intros r Hr;
    unfold Spec.satisfies; simpl;
    pose proof (Hsame Platform r Hr); pose proof (Hsame State r Hr);
    pose proof (Hsame City r Hr); pose proof (Hsame Product r Hr); tauto.
Qed.
